(** * GOES data retrieval scripts: a shallow embedding

    Embeds [src/nasa_spaceApp/geos.py] (module [Geos]) and
    [src/public/geos_old.py] (module [GeosOld]).

    The scripts are sequences of I/O steps, so the embedding is a small
    state-and-exception monad over a [World] (local files, standard output,
    HTTP requests issued).  Library calls whose code is not part of the
    repository (sunpy, astropy, xarray, urllib, the table writer) are the
    fields of the class [Externals]; everything proved below holds for every
    instance of it. *)

From Stdlib Require Import ZArith Ascii String DecimalString Sorted Permutation.
From stdpp Require Import base option list gmap strings sorting.

Local Open Scope string_scope.
Local Open Scope list_scope.
Local Open Scope Z_scope.

(** ** Python values and exceptions *)

Inductive exn : Type :=
| KeyError (key : string)
| IndexError
| ValueError (msg : string)
| LibraryError (msg : string).

Inductive outcome (A : Type) : Type :=
| Returned (a : A)
| Raised (e : exn).
Arguments Returned {A} a.
Arguments Raised {A} e.

#[global] Instance outcome_ret : MRet outcome := λ A a, Returned a.
#[global] Instance outcome_bind : MBind outcome := λ A B f m,
  match m with
  | Returned a => f a
  | Raised e => Raised e
  end.

(** ** The world a script runs in *)

Record World : Type := mkWorld {
  files : gmap string string;          (* local files: path to contents *)
  stdout : list string;                (* lines printed so far *)
  requests : list (string * string)    (* urlretrieve calls issued: (url, filename) *)
}.

Definition M (A : Type) : Type := World → outcome A * World.

#[global] Instance M_ret : MRet M := λ A a w, (Returned a, w).
#[global] Instance M_bind : MBind M := λ A B f m w,
  match m w with
  | (Returned a, w') => f a w'
  | (Raised e, w') => (Raised e, w')
  end.

Definition lift {A} (o : outcome A) : M A := λ w, (o, w).

(** [try: body except: handler]; the handler starts in the world the
    exception left behind. *)
Definition try_except {A} (body : M A) (handler : exn → M A) : M A := λ w,
  match body w with
  | (Returned a, w') => (Returned a, w')
  | (Raised e, w') => handler e w'
  end.

(** [for x in l: body x] *)
Fixpoint for_each {A} (l : list A) (body : A → M unit) : M unit :=
  match l with
  | [] => mret tt
  | x :: l' => body x ;; for_each l' body
  end.

Definition print (line : string) : M unit := λ w,
  (Returned tt, mkWorld (files w) (stdout w ++ [line]) (requests w)).

Definition os_path_exists (filename : string) : M bool := λ w,
  (Returned (bool_decide (is_Some (files w !! filename))), w).

(** ** Python string and list primitives *)

(** [l[i]], with Python's negative indices and [IndexError]. *)
Definition getitem {A} (l : list A) (i : Z) : outcome A :=
  let n := Z.of_nat (length l) in
  let j := if i <? 0 then i + n else i in
  if (j <? 0) || (n <=? j) then Raised IndexError
  else match l !! Z.to_nat j with
       | Some x => Returned x
       | None => Raised IndexError
       end.

(** [s.startswith(p)] and [s.endswith(p)] *)
Definition startswith (s p : string) : bool := String.prefix p s.

Definition endswith (s p : string) : bool :=
  let n := String.length s in
  let k := String.length p in
  (k <=? n)%nat && String.eqb (String.substring (n - k) k s) p.

(** [s.split(sep)] for a one-character separator. *)
Fixpoint split (sep : ascii) (s : string) : list string :=
  match s with
  | EmptyString => [EmptyString]
  | String a s' =>
      if Ascii.eqb a sep then EmptyString :: split sep s'
      else match split sep s' with
           | [] => [String a EmptyString]
           | h :: t => String a h :: t
           end
  end.

(** [s.replace(c, '')] for a one-character [c]. *)
Fixpoint remove_char (c : ascii) (s : string) : string :=
  match s with
  | EmptyString => EmptyString
  | String a s' =>
      if Ascii.eqb a c then remove_char c s' else String a (remove_char c s')
  end.

(** ["{:d}".format(n)] and [str(n)] for an [int]. *)
Definition format_d (n : Z) : string := NilZero.string_of_int (Z.to_int n).

(** [os.path.join(a, b)] (posixpath). *)
Definition os_path_join (a b : string) : string :=
  if startswith b "/" then b
  else if String.eqb a "" || endswith a "/" then a +:+ b
  else a +:+ "/" +:+ b.

(** ** Tables *)

Section Tables.
Context {F : Type}.   (* float64 cell values *)

(** A pandas [DataFrame] with a datetime index: the column names and the
    rows, each an index value (a timestamp) with its cells in column
    order. *)
Record DataFrame : Type := mkFrame {
  columns : list string;
  rows : list (Z * list F)
}.

Definition is_nil {A} (l : list A) : bool :=
  match l with [] => true | _ => false end.

Fixpoint frame_rows (cols : list (list F)) (index : list Z)
  : option (list (Z * list F)) :=
  match index with
  | [] => if forallb is_nil cols then Some [] else None
  | t :: index' =>
      cells ← mapM head cols;
      rest ← frame_rows (tail <$> cols) index';
      Some ((t, cells) :: rest)
  end.

(** [pd.DataFrame({name: column, ...}, index=index)]: every column must be
    as long as the index. *)
Definition new_DataFrame (data : list (string * list F)) (index : list Z)
  : outcome DataFrame :=
  match frame_rows (snd <$> data) index with
  | Some rs => Returned (mkFrame (fst <$> data) rs)
  | None => Raised (ValueError "Length of values does not match length of index")
  end.

(** Puts a row in front of the first row whose index is not smaller. *)
Fixpoint insert_row (r : Z * list F) (l : list (Z * list F)) : list (Z * list F) :=
  match l with
  | [] => [r]
  | x :: l' => if r.1 <=? x.1 then r :: x :: l' else x :: insert_row r l'
  end.

Fixpoint sort_rows (l : list (Z * list F)) : list (Z * list F) :=
  match l with
  | [] => []
  | r :: l' => insert_row r (sort_rows l')
  end.

(** [df.sort_index(inplace=True)]: rows by nondecreasing index, rows with
    equal index values in the order they had.  (pandas sorts with numpy's
    default kind, which keeps that order on short inputs and does not promise
    it on long ones.) *)
Definition sort_index (df : DataFrame) : DataFrame :=
  mkFrame (columns df) (sort_rows (rows df)).

(** A sunpy [TimeSeries]: the frame and the units of its columns. *)
Record TimeSeries : Type := mkTimeSeries {
  ts_data : DataFrame;
  ts_units : list (string * string)
}.

(** An [xarray.Dataset] as far as the scripts read it.  [data_vars] holds
    the arrays that [data[name]] gives for the names read as numbers;
    [time_coord] is what [data['time']] gives, unparsed: the coordinate
    variable, or the integer index of a dimension [time] that has none;
    [None] when the data set has neither, so that the lookup raises. *)
Record Dataset {T : Type} : Type := mkDataset {
  data_vars : gmap string (list F);
  time_coord : option T
}.
Arguments Dataset : clear implicits.

Definition data_var {T} (data : Dataset T) (name : string) : outcome (list F) :=
  match data_vars data !! name with
  | Some a => Returned a
  | None => Raised (KeyError name)
  end.

(** One object of a NOAA JSON file. *)
Record XrayRecord : Type := mkXrayRecord {
  time_tag : string;
  flux_value : F;
  energy : string
}.
End Tables.
Arguments DataFrame : clear implicits.
Arguments TimeSeries : clear implicits.
Arguments Dataset : clear implicits.
Arguments XrayRecord : clear implicits.
Arguments mkDataset {F T} data_vars time_coord.
Arguments data_vars {F T} d.
Arguments time_coord {F T} d.

(** ** Library calls outside the repository *)

Class Externals : Type := {
  flux : Type;
  Time : Type;
  (* sunpy.time.parse_time on a string *)
  parse_time : string → outcome Time;
  (* Time.strftime *)
  strftime : Time → string → string;
  (* Time.datetime, as a timestamp *)
  datetime : Time → Z;
  (* the values of an array of times before they are parsed *)
  TimeArray : Type;
  (* sunpy.time.parse_time on such an array *)
  parse_time_array : TimeArray → outcome (list Time);
  (* urllib.request.urlretrieve(url, filename) acting on the local files *)
  urlretrieve : string → string → gmap string string
                → outcome unit * gmap string string;
  (* xarray.open_dataset(file) *)
  open_dataset : option string → gmap string string
                 → outcome (Dataset flux TimeArray);
  (* pd.read_json(url) *)
  read_json : string → outcome (list (XrayRecord flux));
  (* TimeSeries.to_table().write(file, format='pandas.json', overwrite=True) *)
  table_write : string → TimeSeries flux → gmap string string
                → outcome unit * gmap string string
}.

(** [u.W/u.m**2] *)
Definition W_per_m2 : string := "W / m2".

(** Library and built-in calls that only [get_goes_last_7d_complete] makes. *)
Class Streams : Type := {
  (* urllib.request.urlopen(url) and .read() on the response: the URL the
     response came from (its .url) and the body *)
  urlopen_read : string → outcome (string * string);
  (* bytes.decode('utf-8') *)
  decode_utf8 : string → outcome string;
  (* the exception of open(file, 'w') in a given state of the files, if any *)
  open_refused : string → gmap string string → option exn
}.

(** [open(file, 'w')]: the file is created or emptied. *)
Definition open_w `{Streams} (file : string) : M unit := λ w,
  match open_refused file (files w) with
  | Some e => (Raised e, w)
  | None => (Returned tt, mkWorld (<[file := ""]> (files w)) (stdout w) (requests w))
  end.

(** [f.writelines(text)] on a file just opened with ['w'], and its closing:
    the characters of [text] in order.  Writing to the open file is taken to
    succeed. *)
Definition writelines (file text : string) : M unit := λ w,
  (Returned tt, mkWorld (<[file := text]> (files w)) (stdout w) (requests w)).


(** The calls that touch the world, as computations. *)
Section Calls.
Context `{Externals}.

(** [urllib.request.urlretrieve(url, filename)]: one request, recorded. *)
Definition request (url filename : string) : M unit := λ w,
  let '(r, fs) := urlretrieve url filename (files w) in
  (r, mkWorld fs (stdout w) (requests w ++ [(url, filename)])).

Definition load_dataset (file : option string) : M (Dataset flux TimeArray) := λ w,
  (open_dataset file (files w), w).

Definition write_table (file : string) (t : TimeSeries flux) : M unit := λ w,
  let '(r, fs) := table_write file t (files w) in
  (r, mkWorld fs (stdout w) (requests w)).

(** [parse_time(data['time']).datetime] on a dataset: the lookup, the
    parsing of what it gave, and the conversion of each time. *)
Definition time_index (data : Dataset flux TimeArray) : outcome (list Z) :=
  match time_coord data with
  | Some array =>
      match parse_time_array array with
      | Returned times => Returned (datetime <$> times)
      | Raised e => Raised e
      end
  | None => Raised (KeyError "time")
  end.

(** [[parse_time(x).datetime for x in tags]] *)
Fixpoint parse_times (tags : list string) : outcome (list Z) :=
  match tags with
  | [] => mret []
  | x :: tags' =>
      t ← parse_time x;
      rest ← parse_times tags';
      mret (datetime t :: rest)
  end.

End Calls.

(** ** Dictionaries with insertion order *)

Fixpoint dict_getitem (d : list (string * string)) (key : string) : outcome string :=
  match d with
  | [] => Raised (KeyError key)
  | (k, v) :: d' => if String.eqb k key then Returned v else dict_getitem d' key
  end.

Definition dict_keys (d : list (string * string)) : list string := fst <$> d.

Fixpoint join (sep : string) (l : list string) : string :=
  match l with
  | [] => ""
  | [x] => x
  | x :: l' => x +:+ sep +:+ join sep l'
  end.

(** [frame[name]] on the frame [pd.read_json] makes of a list of objects: a
    column for each key of the objects, so none at all for an empty list. *)
Definition column {A B} (name : string) (field : A → B) (frame : list A)
  : outcome (list B) :=
  match frame with
  | [] => Raised (KeyError name)
  | _ => Returned (field <$> frame)
  end.

(** [frame[frame[name] == value]], with the comparison as [keep]: the column
    is looked up, then the rows are selected. *)
Definition select_rows {A} (name : string) (field : A → string) (keep : A → bool)
    (frame : list A) : outcome (list A) :=
  column name field frame;;
  mret (List.filter keep frame).

(** [str(d.keys())] for keys without quotes or escapes. *)
Definition repr_dict_keys (keys : list string) : string :=
  "dict_keys([" +:+ join ", " ((λ k, "'" +:+ k +:+ "'") <$> keys) +:+ "])".

(** ** src/nasa_spaceApp/geos.py *)

Module Geos.
Section Script.
Context `{Externals}.

Definition APP_NAME : string := "nasa_spaceApp".
Definition DATA_PATH : string := APP_NAME +:+ "/data".
Definition NGDC_URL : string :=
  "https://data.ngdc.noaa.gov/platforms/solar-space-observing-satellites/goes/".
Definition SWPC_URL : string := "https://services.swpc.noaa.gov/json/goes/primary".

Definition XRS_X1S : list string := ["xrsf-l2-flx1s_science"; "sci_xrsf-l2-flx1s_g"; "_v2-1-0"].
Definition XRS_SUM : list string := ["xrsf-l2-flsum_science"; "sci_xrsf-l2-flsum_g"; "_v2-1-0"].
Definition XRS_LOC : list string := ["xrsf-l2-flloc_science"; "sci_xrsf-l2-flloc_g"; "_v2-1-0"].
Definition XRS_DET : list string := ["xrsf-l2-fldet_science"; "sci_xrsf-l2-fldet_g"; "_v2-1-0"].
Definition XRS_KD1 : list string := ["xrsf-l2-bkd1d_science"; "sci_xrsf-l2-bkd1d_g"; "_v2-1-0"].
Definition EPHE : list string := ["ephe-l2-orb1m"; "dn_ephe-l2-orb1m_g"; "_v0-0-3"].
Definition EUV_AVG1D : list string := ["euvs-l2-avg1d_science"; "sci_euvs-l2-avg1d_g"; "_v1-0-1"].
Definition EUV_AVG1M : list string := ["euvs-l2-avg1m_science"; "sci_euvs-l2-avg1m_g"; "_v1-0-1"].
Definition MAG_HI : list string := ["magn-l2-hires"; "dn_magn-l2-hires_g"; "_v1-0-1"].

(** The three assignments of one branch of [construct_path]. *)
Definition fragments (row : list string) : outcome (string * string * string) :=
  path_one ← getitem row 0;
  path_two ← getitem row 1;
  version ← getitem row 2;
  mret (path_one, path_two, version).

Definition construct_path (type : string) : outcome (string * string * string) :=
  if String.eqb type "xrs-x1s" then fragments XRS_X1S
  else if String.eqb type "xrs-sum" then fragments XRS_SUM
  else if String.eqb type "xrs-loc" then fragments XRS_LOC
  else if String.eqb type "xrs-det" then fragments XRS_DET
  else if String.eqb type "xrs-kd1" then fragments XRS_KD1
  else if String.eqb type "ephe" then fragments EPHE
  else if String.eqb type "euv-avg1d" then fragments EUV_AVG1D
  else if String.eqb type "euv-avg1m" then fragments EUV_AVG1M
  else if String.eqb type "mag-hi" then fragments MAG_HI
  else fragments XRS_X1S.

(** Lines 118-130: the URL of one day's file. *)
Definition goes_url (sat : Z) (frags : string * string * string) (date : Time) : string :=
  let '(path_one, path_two, version) := frags in
  os_path_join NGDC_URL
    ("goes" +:+ format_d sat +:+ "/l2/data/" +:+ path_one +:+ "/"
     +:+ strftime date "%Y" +:+ "/" +:+ strftime date "%m" +:+ "/"
     +:+ path_two +:+ format_d sat +:+ "_d" +:+ strftime date "%Y%m%d"
     +:+ version +:+ ".nc").

(** Lines 133-136: where the file is kept locally. *)
Definition local_filename (url : string) (path : option string) : outcome string :=
  match path with
  | Some dir => name ← getitem (split "/" url) (-1); mret (os_path_join dir name)
  | None => getitem (split "/" url) (-1)
  end.

(** The default of [type] in the signature of [get_goes]. *)
Definition default_type : string := "xrs".

(** [get_goes(date, sat=16, type='xrs', path=None)]; the result [None] is
    Python's [None]. *)
Definition get_goes (date : string) (sat : Z) (type : string) (path : option string)
  : M (option string) :=
  frags ← lift (construct_path type);
  date ← lift (parse_time date);
  let url := goes_url sat frags date in
  print url;;
  filename ← lift (local_filename url path);
  found ← os_path_exists filename;
  if found : bool then mret (Some filename)
  else
    try_except
      (request url filename;;
       found ← os_path_exists filename;
       if found : bool then mret (Some filename) else mret None)
      (λ _, print "Download failed";; mret None).

(** [make_goes_timeseries(file)]; [get_goes_by_date] passes it whatever
    [get_goes] returned, [None] included. *)
Definition make_goes_timeseries (file : option string) : M (TimeSeries flux) :=
  data ← load_dataset file;
  let units := [("xrsa", W_per_m2); ("xrsb", W_per_m2)] in
  xrsb ← lift (data_var data "xrsb_flux");
  xrsa ← lift (data_var data "xrsa_flux");
  times ← lift (time_index data);
  data ← lift (new_DataFrame [("xrsa", xrsa); ("xrsb", xrsb)] times);
  let data := sort_index data in
  mret (mkTimeSeries data units).

Definition dict_interval : list (string * string) :=
  [("7-day", "xrays-7-day.json"); ("3-day", "xrays-3-day.json");
   ("1-day", "xrays-1-day.json"); ("6-hour", "xrays-6-hour.json")].

Definition short_band (r : XrayRecord flux) : bool := String.eqb (energy r) "0.05-0.4nm".
Definition long_band (r : XrayRecord flux) : bool := String.eqb (energy r) "0.1-0.8nm".

(** [read_recent_noaa(interval="7-day")] *)
Definition read_recent_noaa (interval : string) : M (TimeSeries flux) :=
  (if bool_decide (interval ∈ dict_keys dict_interval) then mret tt
   else print ("interval must be one of " +:+ repr_dict_keys (dict_keys dict_interval)));;
  name ← lift (dict_getitem dict_interval interval);
  let noaa_file := SWPC_URL +:+ "/" +:+ name in
  let units := [("xrsa", W_per_m2); ("xrsb", W_per_m2)] in
  data ← lift (read_json noaa_file);
  data_short ← lift (select_rows "energy" energy short_band data);
  data_long ← lift (select_rows "energy" energy long_band data);
  time_array ← lift (parse_times (time_tag <$> data_short));
  df ← lift (new_DataFrame [("xrsa", flux_value <$> data_short);
                            ("xrsb", flux_value <$> data_long)] time_array);
  let df := sort_index df in
  mret (mkTimeSeries df units).

Definition satList : list Z := [16; 17; 18].
Definition typeList : list string := ["xrs-x1s"].
Definition dateList : list string :=
  ["2022-10-02"; "2022-10-01"; "2022-09-30"; "2022-09-29"; "2022-09-28";
   "2022-09-27"; "2022-09-26"; "2022-09-25"; "2022-09-24"; "2022-09-23";
   "2022-09-22"; "2022-09-21"; "2022-09-20"].

Definition output_file (type : string) (sat : Z) (date : string) : string :=
  DATA_PATH +:+ "/goes-" +:+ format_d sat +:+ "-" +:+ type +:+ "-"
  +:+ remove_char "-" date +:+ ".json".

(** Lines 244-254: what one iteration tries to do. *)
Definition process (type : string) (sat : Z) (date : string) : M unit :=
  let output_file := output_file type sat date in
  files ← get_goes date sat type (Some DATA_PATH);
  goes_xrs ← make_goes_timeseries files;
  let goes_16 := goes_xrs in
  write_table output_file goes_16;;
  print ("  ==> " +:+ output_file).

(** [get_goes_by_date()] *)
Definition get_goes_by_date : M unit :=
  for_each typeList (λ type,
    for_each satList (λ sat,
      for_each dateList (λ date,
        try_except (process type sat date) (λ _, mret tt)))).

(** [get_goes_last_7d_deprecated()] *)
Definition get_goes_last_7d_deprecated : M unit :=
  let output_file := DATA_PATH +:+ "/result.json" in
  goes_xrs_7days ← read_recent_noaa "7-day";
  let goes := goes_xrs_7days in
  write_table output_file goes.

Definition GOES_ELECTRON : string := SWPC_URL +:+ "/differential-electrons-7-day.json".
Definition GOES_PROTON : string := SWPC_URL +:+ "/differential-protons-7-day.json".
Definition GOES_MAGNETOMETERS : string := SWPC_URL +:+ "/magnetometers-7-day.json".
Definition GOES_XRAYS_FLARES : string := SWPC_URL +:+ "/xray-flares-7-day.json".
Definition GOES_XRAYS : string := SWPC_URL +:+ "/xrays-7-day.json".

Definition sensor_type : list (string * string) :=
  [(GOES_ELECTRON, "electron.json"); (GOES_PROTON, "proton.json");
   (GOES_MAGNETOMETERS, "magnetometers.json");
   (GOES_XRAYS_FLARES, "xrays-flares.json"); (GOES_XRAYS, "xrays.json")].

Context `{Streams}.

(** Lines 305-312: one turn of the loop of [get_goes_last_7d_complete]. *)
Definition fetch_sensor (key : string) : M unit :=
  response ← lift (urlopen_read key);
  let result := response.2 in
  print response.1;;
  name ← lift (dict_getitem sensor_type key);
  let output_file := DATA_PATH +:+ "/7-day/" +:+ name in
  open_w output_file;;
  text ← lift (decode_utf8 result);
  writelines output_file text;;
  print ("  ==> " +:+ output_file).

(** [get_goes_last_7d_complete()] *)
Definition get_goes_last_7d_complete : M unit :=
  for_each (dict_keys sensor_type) fetch_sensor.

End Script.
End Geos.

(** ** src/public/geos_old.py *)

Module GeosOld.
Section Script.
Context `{Externals}.

Definition DATA_PATH : string := "public/data".
Definition BASE_URL : string :=
  "https://data.ngdc.noaa.gov/platforms/solar-space-observing-satellites/goes/".
Definition API_VERSION : string := "_v2-1-0".

(** Lines 37-46: the URL of one day's file. *)
Definition goes_url (sat : Z) (date : Time) : string :=
  os_path_join BASE_URL
    ("goes" +:+ format_d sat +:+ "/l2/data/xrsf-l2-flx1s_science/"
     +:+ strftime date "%Y" +:+ "/" +:+ strftime date "%m"
     +:+ "/sci_xrsf-l2-flx1s_g" +:+ format_d sat +:+ "_d"
     +:+ strftime date "%Y%m%d" +:+ API_VERSION +:+ ".nc").

(** Lines 48-51: where the file is kept locally. *)
Definition local_filename (url : string) (path : option string) : outcome string :=
  match path with
  | Some dir => name ← getitem (split "/" url) (-1); mret (os_path_join dir name)
  | None => getitem (split "/" url) (-1)
  end.

(** [get_goes(date, sat=16, path=None)] *)
Definition get_goes (date : string) (sat : Z) (path : option string)
  : M (option string) :=
  date ← lift (parse_time date);
  let url := goes_url sat date in
  filename ← lift (local_filename url path);
  found ← os_path_exists filename;
  if found : bool then mret (Some filename)
  else
    try_except
      (request url filename;;
       found ← os_path_exists filename;
       if found : bool then mret (Some filename) else mret None)
      (λ _, print "Download failed";; mret None).

(** [make_goes_timeseries(file)] *)
Definition make_goes_timeseries (file : option string) : M (TimeSeries flux) :=
  data ← load_dataset file;
  let units := [("xrsa", W_per_m2); ("xrsb", W_per_m2)] in
  xrsb ← lift (data_var data "xrsb_flux");
  xrsa ← lift (data_var data "xrsa_flux");
  times ← lift (time_index data);
  data ← lift (new_DataFrame [("xrsa", xrsa); ("xrsb", xrsb)] times);
  let data := sort_index data in
  mret (mkTimeSeries data units).

Definition sat_number : Z := 16.
Definition sensor_type : string := "xrs".
Definition date : string := "2022-09-28".
Definition output_file : string :=
  DATA_PATH +:+ "/goes-" +:+ format_d sat_number +:+ "-" +:+ sensor_type +:+ "-"
  +:+ remove_char "-" date +:+ ".json".

(** Lines 109-115: the statements the script runs when loaded. *)
Definition main : M unit :=
  files ← get_goes date 16 (Some DATA_PATH);
  goes_xrs ← make_goes_timeseries files;
  let goes_16 := goes_xrs in
  write_table output_file goes_16.

End Script.
End GeosOld.

(** ** A concrete world for examples

    ISO dates, a server that serves, refuses or answers without leaving a
    file, and readers that return fixed data. *)

Module Sample.

Record Date : Type := mkDate { year : nat; month : nat; day : nat }.

Definition digits (s : string) : option nat :=
  Nat.of_uint <$> NilEmpty.uint_of_string s.

Definition pad (width n : nat) : string :=
  let s := NilZero.string_of_uint (Nat.to_uint n) in
  String.concat "" (repeat "0" (width - String.length s)) +:+ s.

Definition parse_iso (s : string) : outcome Date :=
  match digits (substring 0 4 s), digits (substring 5 2 s), digits (substring 8 2 s) with
  | Some y, Some m, Some d =>
      if (String.length s =? 10)%nat && String.eqb (substring 4 1 s) "-"
         && String.eqb (substring 7 1 s) "-"
      then Returned (mkDate y m d)
      else Raised (ValueError s)
  | _, _, _ => Raised (ValueError s)
  end.

Definition format_date (d : Date) (fmt : string) : string :=
  if String.eqb fmt "%Y" then pad 4 (year d)
  else if String.eqb fmt "%m" then pad 2 (month d)
  else if String.eqb fmt "%Y%m%d" then pad 4 (year d) +:+ pad 2 (month d) +:+ pad 2 (day d)
  else fmt.

Definition timestamp (d : Date) : Z :=
  Z.of_nat (year d) * 10000 + Z.of_nat (month d) * 100 + Z.of_nat (day d).

Inductive server : Type :=
| Serves (body : string)
| Refuses
| Silent.

Definition fetch (srv : server) (url filename : string) (fs : gmap string string)
  : outcome unit * gmap string string :=
  match srv with
  | Serves body => (Returned tt, <[filename := body]> fs)
  | Refuses => (Raised (LibraryError "HTTP Error 404: Not Found"), fs)
  | Silent => (Returned tt, fs)
  end.

Definition date_of_stamp (z : Z) : Date :=
  mkDate (Z.to_nat (z / 10000)) (Z.to_nat ((z / 100) mod 100)) (Z.to_nat (z mod 100)).

(** An array of time stamps parses unless it is empty. *)
Definition parse_stamps (array : list Z) : outcome (list Date) :=
  match array with
  | [] => Raised (ValueError "Input values did not match any of the formats")
  | _ => Returned (date_of_stamp <$> array)
  end.

Definition day_of_data : Dataset Z (list Z) :=
  mkDataset {[ "xrsa_flux" := [30; 10; 20]; "xrsb_flux" := [31; 11; 21] ]}
            (Some [3; 1; 2]).

Definition open_file (file : option string) (fs : gmap string string)
  : outcome (Dataset Z (list Z)) :=
  match file with
  | Some f => if bool_decide (is_Some (fs !! f)) then Returned day_of_data
              else Raised (LibraryError "No such file")
  | None => Raised (ValueError "did not find a match in any of xarray's IO backends")
  end.

Definition feed : list (XrayRecord Z) :=
  [mkXrayRecord "2022-10-02" 12 "0.05-0.4nm"; mkXrayRecord "2022-10-02" 13 "0.1-0.8nm";
   mkXrayRecord "2022-10-01" 10 "0.05-0.4nm"; mkXrayRecord "2022-10-01" 11 "0.1-0.8nm"].

Definition save (file : string) (t : TimeSeries Z) (fs : gmap string string)
  : outcome unit * gmap string string :=
  (Returned tt, <[file := "{}"]> fs).

Definition externals (srv : server) : Externals := {|
  flux := Z;
  Time := Date;
  parse_time := parse_iso;
  strftime := format_date;
  datetime := timestamp;
  TimeArray := list Z;
  parse_time_array := parse_stamps;
  urlretrieve := fetch srv;
  open_dataset := open_file;
  read_json := λ _, Returned feed;
  table_write := save
|}.

Definition empty_world : World := mkWorld ∅ [] [].

Definition cached_name : string := "sci_xrsf-l2-flx1s_g16_d20220928_v2-1-0.nc".

Definition cached_world : World := mkWorld {[ cached_name := "netcdf" ]} [] [].

Definition sept_28 : Date := mkDate 2022 9 28.

Definition xrs_frags : string * string * string :=
  ("xrsf-l2-flx1s_science", "sci_xrsf-l2-flx1s_g", "_v2-1-0").

Definition xrs_url : string :=
  "https://data.ngdc.noaa.gov/platforms/solar-space-observing-satellites/goes/goes16/l2/data/xrsf-l2-flx1s_science/2022/09/sci_xrsf-l2-flx1s_g16_d20220928_v2-1-0.nc".

Definition mag_url : string :=
  "https://data.ngdc.noaa.gov/platforms/solar-space-observing-satellites/goes/goes16/l2/data/magn-l2-hires/2022/09/dn_magn-l2-hires_g16_d20220928_v1-0-1.nc".

Definition xrs_segs : list string := removelast (split "/" xrs_url).

(** A world whose data directory already holds the file of 2022-09-28. *)
Definition late_cache : World :=
  mkWorld {[ "nasa_spaceApp/data/" +:+ cached_name := "netcdf" ]} [] [].

Definition first_four : list (string * Z * string) :=
  [("xrs-x1s", 16, "2022-10-02"); ("xrs-x1s", 16, "2022-10-01");
   ("xrs-x1s", 16, "2022-09-30"); ("xrs-x1s", 16, "2022-09-29")].

(** Feeds that are down, feeds whose body is not UTF-8, and files that cannot
    be opened. *)
Definition streams (down garbled locked : list string) : Streams := {|
  urlopen_read := λ url,
    if bool_decide (url ∈ down) then Raised (LibraryError "HTTP Error 503")
    else Returned (url, if bool_decide (url ∈ garbled) then "not utf-8" else "[]");
  decode_utf8 := λ body,
    if String.eqb body "not utf-8" then Raised (ValueError "invalid start byte")
    else Returned body;
  open_refused := λ file _,
    if bool_decide (file ∈ locked) then Some (LibraryError "Permission denied")
    else None
|}.

(** A world whose old data directory already holds the file of 2022-09-28. *)
Definition old_cache : World :=
  mkWorld {[ "public/data/" +:+ cached_name := "netcdf" ]} [] [].

(** A data set whose time array is empty. *)
Definition no_times : Dataset Z (list Z) :=
  mkDataset {[ "xrsa_flux" := []; "xrsb_flux" := [] ]} (Some []).

(** A feed with one long-band record too many. *)
Definition uneven_feed : list (XrayRecord Z) :=
  feed ++ [mkXrayRecord "2022-10-03" 15 "0.1-0.8nm"].

Definition externals_with (srv : server) (data : option (Dataset Z (list Z)))
    (records : outcome (list (XrayRecord Z))) : Externals := {|
  flux := Z;
  Time := Date;
  parse_time := parse_iso;
  strftime := format_date;
  datetime := timestamp;
  TimeArray := list Z;
  parse_time_array := parse_stamps;
  urlretrieve := fetch srv;
  open_dataset := λ file fs,
    match data with
    | Some ds => Returned ds
    | None => Raised (LibraryError "No such file")
    end;
  read_json := λ _, records;
  table_write := save
|}.

End Sample.

(** ** The specification's vocabulary *)

Section Specification.
Context `{Externals}.

(** The static lookup table: instrument type to its three fragments. *)
Definition lookup_table : list (string * list string) :=
  [("xrs-x1s", Geos.XRS_X1S); ("xrs-sum", Geos.XRS_SUM); ("xrs-loc", Geos.XRS_LOC);
   ("xrs-det", Geos.XRS_DET); ("xrs-kd1", Geos.XRS_KD1); ("ephe", Geos.EPHE);
   ("euv-avg1d", Geos.EUV_AVG1D); ("euv-avg1m", Geos.EUV_AVG1M);
   ("mag-hi", Geos.MAG_HI)].

Definition recognized : list string := fst <$> lookup_table.

Fixpoint assoc (key : string) (table : list (string * list string))
  : option (list string) :=
  match table with
  | [] => None
  | (k, row) :: table' => if String.eqb key k then Some row else assoc key table'
  end.

(** The row a type string selects; an unlisted type selects the first row. *)
Definition table_row (type : string) : list string :=
  default Geos.XRS_X1S (assoc type lookup_table).

(** "goes{sat}/l2/data/{fragment1}/{YYYY}/{MM}/{fragment2}{sat}_d{YYYYMMDD}{fragment3}.nc" *)
Definition url_template (sat : Z) (f1 f2 f3 : string) (d : Time) : string :=
  "goes" +:+ format_d sat +:+ "/l2/data/" +:+ f1 +:+ "/" +:+ strftime d "%Y"
  +:+ "/" +:+ strftime d "%m" +:+ "/" +:+ f2 +:+ format_d sat +:+ "_d"
  +:+ strftime d "%Y%m%d" +:+ f3 +:+ ".nc".

(** What a call of [get_goes] does once the URL and the local file name are
    known: reuse the file, or issue one request and look again. *)
Definition reuse_or_fetch (url filename : string) (w : World)
  : outcome (option string) * World :=
  if bool_decide (is_Some (files w !! filename)) then (Returned (Some filename), w)
  else
    match urlretrieve url filename (files w) with
    | (Returned _, fs) =>
        (Returned (if bool_decide (is_Some (fs !! filename)) then Some filename else None),
         mkWorld fs (stdout w) (requests w ++ [(url, filename)]))
    | (Raised _, fs) =>
        (Returned None,
         mkWorld fs (stdout w ++ ["Download failed"]) (requests w ++ [(url, filename)]))
    end.

(** The file name the specification describes: the last segment of the URL,
    under [path] when one is given. *)
Definition named_under (path : option string) (name : string) : string :=
  match path with
  | Some dir => os_path_join dir name
  | None => name
  end.

(** A table with exactly the two columns 'xrsa' and 'xrsb', two cells in
    every row, and rows in nondecreasing order of their time index. *)
Definition xrs_table (t : TimeSeries flux) : Prop :=
  columns (ts_data t) = ["xrsa"; "xrsb"]
  ∧ Forall (λ r, length r.2 = 2%nat) (rows (ts_data t))
  ∧ StronglySorted Z.le (fst <$> rows (ts_data t)).

(** The (type, sat, date) combinations, in the order the loops of
    [get_goes_by_date] visit them. *)
Definition combinations : list (string * Z * string) :=
  flat_map (λ type,
    flat_map (λ sat,
      flat_map (λ date, [(type, sat, date)]) Geos.dateList) Geos.satList)
    Geos.typeList.

(** One iteration: the body under its bare [except: continue]. *)
Definition attempt (c : string * Z * string) : M unit :=
  try_except (Geos.process c.1.1 c.1.2 c.2) (λ _, mret tt).

(** The iterations over [cs], one after the other. *)
Definition attempts (cs : list (string * Z * string)) : M unit :=
  for_each cs attempt.

(** The world after [print line]. *)
Definition printed (line : string) (w : World) : World :=
  mkWorld (files w) (stdout w ++ [line]) (requests w).

(** The last character of a string, if it has one. *)
Fixpoint last_char (s : string) : option ascii :=
  match s with
  | EmptyString => None
  | String a s' =>
      match last_char s' with
      | Some c => Some c
      | None => Some a
      end
  end.

(** [urlretrieve] and the table writer leave every file but the one they are
    given as it was, and a write that returns leaves its file in place. *)
Definition writes_target_only : Prop :=
  (∀ url filename fs f,
     f ≠ filename → (urlretrieve url filename fs).2 !! f = fs !! f)
  ∧ (∀ file t fs f,
       f ≠ file → (table_write file t fs).2 !! f = fs !! f)
  ∧ (∀ file t fs fs',
       table_write file t fs = (Returned tt, fs') → is_Some (fs' !! file)).

(** [c in s] for a character [c]. *)
Fixpoint has_char (c : ascii) (s : string) : bool :=
  match s with
  | EmptyString => false
  | String a s' => Ascii.eqb a c || has_char c s'
  end.

(** The readings of a data set, one row per time value: the time with the
    short-band and the long-band flux at the same position. *)
Definition readings {F} (times : list Z) (xrsa xrsb : list F) : list (Z * list F) :=
  zip_with (λ t ab, (t, [ab.1; ab.2])) times (zip xrsa xrsb).

(** The file [get_goes_last_7d_complete] writes for a sensor's file name. *)
Definition sensor_file (name : string) : string :=
  Geos.DATA_PATH +:+ "/7-day/" +:+ name.

End Specification.

(** ** Properties *)

Section StringFacts.

Lemma append_cons x (a b : string) : String x a +:+ b = String x (a +:+ b).
Proof. reflexivity. Qed.

Lemma append_assoc (a b c : string) : (a +:+ b) +:+ c = a +:+ (b +:+ c).
Proof.
  induction a as [|x a IH]; [done|].
  rewrite !append_cons. by rewrite IH.
Qed.

Lemma has_char_app c (a b : string) :
  has_char c (a +:+ b) = has_char c a || has_char c b.
Proof.
  induction a as [|x a IH]; [done|].
  rewrite append_cons. simpl. by rewrite IH, orb_assoc.
Qed.

Lemma split_without_sep sep (s : string) :
  has_char sep s = false → split sep s = [s].
Proof.
  induction s as [|x s IH]; simpl; [done|].
  intros [Hx Hs]%orb_false_elim. rewrite Hx. by rewrite (IH Hs).
Qed.

(** The last segment of [a/b], for [b] without a separator, is [b]. *)
Lemma split_last_segment sep (a b : string) :
  has_char sep b = false →
  ∃ seg segs, split sep (a +:+ String sep b) = seg :: segs ++ [b].
Proof.
  intros Hb. induction a as [|x a (seg & segs & IH)].
  - change ("" +:+ String sep b) with (String sep b). simpl.
    rewrite Ascii.eqb_refl, (split_without_sep _ _ Hb). by exists "", [].
  - rewrite append_cons. simpl. rewrite IH. destruct (Ascii.eqb x sep).
    + by exists "", (seg :: segs).
    + by exists (String x seg), segs.
Qed.

Lemma digits_without_slash (d : Decimal.uint) :
  has_char "/" (NilEmpty.string_of_uint d) = false.
Proof. induction d; simpl; done. Qed.

Lemma format_d_without_slash (n : Z) : has_char "/" (format_d n) = false.
Proof.
  unfold format_d, NilZero.string_of_int, NilZero.string_of_uint.
  destruct (Z.to_int n) as [d|d]; destruct d; simpl;
    try done; apply digits_without_slash.
Qed.

(** The last character of [a ++ b] is that of [b] when [b] has one. *)
Lemma last_char_app_r c (a b : string) :
  last_char b = Some c → last_char (a +:+ b) = Some c.
Proof.
  intros Hb. induction a as [|x a IH]; [done|].
  rewrite append_cons. simpl. by rewrite IH.
Qed.

(** The last segment of [u ++ t], for [t] without a separator, ends in [t]. *)
Lemma split_suffix sep (u t : string) :
  has_char sep t = false →
  ∃ segs stem, split sep (u +:+ t) = segs ++ [stem +:+ t].
Proof.
  intros Ht. induction u as [|x u (segs & stem & IH)].
  - exists [], "". by apply split_without_sep.
  - rewrite append_cons. simpl. rewrite IH. destruct (Ascii.eqb x sep).
    + by exists ("" :: segs), stem.
    + destruct segs as [|seg segs]; simpl.
      * by exists [], (String x stem).
      * by exists (String x seg :: segs), stem.
Qed.

End StringFacts.

Section TableFacts.
Context {F : Type}.
Implicit Types (cols : list (list F)) (index : list Z) (df : DataFrame F).

Lemma insert_row_perm (r : Z * list F) l : insert_row r l ≡ₚ r :: l.
Proof.
  induction l as [|x l IH]; simpl; [done|].
  destruct (r.1 <=? x.1); [done|].
  rewrite IH. apply Permutation_swap.
Qed.

Lemma sort_rows_perm (l : list (Z * list F)) : sort_rows l ≡ₚ l.
Proof.
  induction l as [|r l IH]; simpl; [done|].
  by rewrite insert_row_perm, IH.
Qed.

Lemma insert_row_sorted (r : Z * list F) l :
  StronglySorted (λ a b, a.1 ≤ b.1) l →
  StronglySorted (λ a b, a.1 ≤ b.1) (insert_row r l).
Proof.
  induction 1 as [|x l Hs IH Hx]; simpl.
  - repeat constructor.
  - destruct (Z.leb_spec r.1 x.1) as [Hle|Hlt].
    + constructor; [by constructor|].
      constructor; [done|].
      eapply Forall_impl; [exact Hx|]. simpl. intros y Hy. lia.
    + constructor; [exact IH|].
      rewrite insert_row_perm. constructor; [lia|exact Hx].
Qed.

Lemma sort_rows_sorted (l : list (Z * list F)) :
  StronglySorted (λ a b, a.1 ≤ b.1) (sort_rows l).
Proof.
  induction l as [|r l IH]; simpl; [constructor|].
  by apply insert_row_sorted.
Qed.

(** The rows of a frame carry the index in order, and one cell per column. *)
Lemma frame_rows_shape cols index rs :
  frame_rows cols index = Some rs →
  fst <$> rs = index ∧ Forall (λ r, length r.2 = length cols) rs.
Proof.
  revert cols rs. induction index as [|t index IH]; intros cols rs; simpl.
  - destruct (forallb is_nil cols); [|done]. intros [= <-]. by split.
  - destruct (mapM head cols) as [cells|] eqn:Ec; [|done]. simpl.
    destruct (frame_rows (tail <$> cols) index) as [rest|] eqn:Er; [|done]. simpl.
    intros [= <-]. destruct (IH _ _ Er) as [Hi Hl]. split.
    + rewrite fmap_cons. by rewrite Hi.
    + constructor.
      * simpl. symmetry. by apply (length_mapM head).
      * rewrite length_fmap in Hl. exact Hl.
Qed.

(** Columns as long as the index always make a frame. *)
Lemma frame_rows_same_length cols index :
  Forall (λ c, length c = length index) cols →
  is_Some (frame_rows cols index).
Proof.
  revert cols. induction index as [|t index IH]; intros cols Hc; simpl.
  - assert (forallb is_nil cols = true) as ->; [|by eexists].
    apply forallb_forall. intros c Hin.
    rewrite Forall_forall in Hc. specialize (Hc c).
    rewrite list_elem_of_In in Hc. specialize (Hc Hin). by destruct c.
  - assert (is_Some (mapM head cols)) as [cells ->].
    { clear IH. induction Hc as [|c cols Hl _ [k Hk]]; [by eexists|].
      destruct c as [|x c]; [done|]. exists (x :: k).
      apply mapM_Some. constructor; [done|]. by apply mapM_Some. }
    simpl. destruct (IH (tail <$> cols)) as [rest ->]; [|by eexists].
    apply Forall_fmap. eapply Forall_impl; [exact Hc|].
    intros [|x c]; simpl; [done|]. by intros [= ->].
Qed.

Lemma new_DataFrame_shape data index df :
  new_DataFrame data index = Returned df →
  columns df = fst <$> data
  ∧ fst <$> rows df = index
  ∧ Forall (λ r, length r.2 = length data) (rows df).
Proof.
  unfold new_DataFrame.
  destruct (frame_rows (snd <$> data) index) as [rs|] eqn:E; [|done].
  intros [= <-]. simpl. apply frame_rows_shape in E as [Hi Hl].
  rewrite length_fmap in Hl. done.
Qed.

(** Rows already in order, ties included, stay as they are. *)
Lemma sort_rows_in_order (l : list (Z * list F)) :
  StronglySorted (λ a b, a.1 ≤ b.1) l → sort_rows l = l.
Proof.
  induction 1 as [|r l Hs IH Hr]; simpl; [done|].
  rewrite IH. destruct Hr as [|x l Hx _]; simpl; [done|].
  by destruct (Z.leb_spec r.1 x.1); [|lia].
Qed.

Lemma sort_index_sorted df : StronglySorted Z.le (fst <$> rows (sort_index df)).
Proof.
  unfold sort_index. simpl.
  apply (StronglySorted_fmap fst (λ a b, a.1 ≤ b.1) Z.le); [done|].
  apply sort_rows_sorted.
Qed.

Lemma sort_index_rows df : rows (sort_index df) ≡ₚ rows df.
Proof. unfold sort_index. simpl. apply sort_rows_perm. Qed.

Lemma sort_index_columns df : columns (sort_index df) = columns df.
Proof. reflexivity. Qed.

End TableFacts.

Section Properties.
Context `{Externals}.

Lemma split_nonempty sep s : split sep s ≠ [].
Proof.
  destruct s as [|a s]; simpl; [done|].
  destruct (Ascii.eqb a sep); [done|].
  by destruct (split sep s).
Qed.

Lemma split_snoc sep s : ∃ segs name, split sep s = segs ++ [name].
Proof.
  destruct (split sep s) as [|x l] eqn:E using rev_ind.
  - by destruct (split_nonempty sep s).
  - eauto.
Qed.

Lemma getitem_last {A} (l : list A) (x : A) : getitem (l ++ [x]) (-1) = Returned x.
Proof.
  unfold getitem. rewrite length_app. simpl length.
  replace (-1 <? 0) with true by reflexivity.
  set (n := Z.of_nat (length l + 1)).
  assert (Hn : -1 + n = Z.of_nat (length l)) by (unfold n; lia).
  rewrite Hn.
  destruct (Z.ltb_spec (Z.of_nat (length l)) 0) as [?|_]; [lia|].
  destruct (Z.leb_spec n (Z.of_nat (length l))) as [?|_]; [unfold n in *; lia|].
  simpl. rewrite Nat2Z.id.
  by rewrite lookup_app_r, Nat.sub_diag.
Qed.

Lemma local_filename_snoc url path segs name :
  split "/" url = segs ++ [name] →
  Geos.local_filename url path = Returned (named_under path name).
Proof.
  intros E. unfold Geos.local_filename. rewrite E, getitem_last.
  by destruct path.
Qed.

Lemma old_local_filename_eq url path :
  GeosOld.local_filename url path = Geos.local_filename url path.
Proof. reflexivity. Qed.

Lemma fragments_row f1 f2 f3 :
  Geos.fragments [f1; f2; f3] = Returned (f1, f2, f3).
Proof. reflexivity. Qed.

Lemma construct_path_row type :
  ∃ f1 f2 f3,
    table_row type = [f1; f2; f3] ∧
    Geos.construct_path type = Returned (f1, f2, f3).
Proof.
  unfold Geos.construct_path, table_row, lookup_table. simpl.
  repeat (destruct (String.eqb type _); [do 3 eexists; split; reflexivity|]).
  do 3 eexists; split; reflexivity.
Qed.

Lemma construct_path_unrecognized type :
  type ∉ recognized →
  Geos.construct_path type = Geos.fragments Geos.XRS_X1S.
Proof.
  intros Hn. unfold Geos.construct_path.
  repeat
    (match goal with
     | |- context [String.eqb type ?k] =>
         destruct (String.eqb_spec type k) as [->|_];
         [exfalso; apply Hn; unfold recognized; simpl; set_solver|]
     end).
  reflexivity.
Qed.

Lemma join_url rest :
  os_path_join Geos.NGDC_URL ("goes" +:+ rest) = Geos.NGDC_URL +:+ "goes" +:+ rest.
Proof. reflexivity. Qed.

Lemma goes_url_template sat f1 f2 f3 d :
  Geos.goes_url sat (f1, f2, f3) d = Geos.NGDC_URL +:+ url_template sat f1 f2 f3 d.
Proof. unfold Geos.goes_url, url_template. apply join_url. Qed.

(** Runs the shared end of both [get_goes]: the existence test, the request
    and its handler. *)
Ltac run_tail :=
  unfold reuse_or_fetch, printed, os_path_exists, try_except, request, print,
    mbind, M_bind, mret, M_ret;
  cbn;
  repeat match goal with
    | |- context [bool_decide ?P] => destruct (bool_decide P); cbn; try done
    | |- context [urlretrieve ?u ?f ?fs] =>
        destruct (urlretrieve u f fs) as [[[]|?] ?]; cbn; try done
    end.

(** [get_goes], step by step. *)
Lemma get_goes_steps date sat type path w :
  Geos.get_goes date sat type path w =
  match Geos.construct_path type, parse_time date with
  | Returned frags, Returned d =>
      let url := Geos.goes_url sat frags d in
      match Geos.local_filename url path with
      | Returned filename => reuse_or_fetch url filename (printed url w)
      | Raised e => (Raised e, printed url w)
      end
  | Returned _, Raised e => (Raised e, w)
  | Raised e, _ => (Raised e, w)
  end.
Proof.
  unfold Geos.get_goes, mbind, M_bind, lift.
  destruct (Geos.construct_path type) as [frags|e]; [|done].
  destruct (parse_time date) as [d|e]; [|done].
  simpl. destruct (Geos.local_filename _ path) as [filename|e]; [|done].
  run_tail.
Qed.

Lemma old_get_goes_steps date sat path w :
  GeosOld.get_goes date sat path w =
  match parse_time date with
  | Returned d =>
      let url := GeosOld.goes_url sat d in
      match GeosOld.local_filename url path with
      | Returned filename => reuse_or_fetch url filename w
      | Raised e => (Raised e, w)
      end
  | Raised e => (Raised e, w)
  end.
Proof.
  unfold GeosOld.get_goes, mbind, M_bind, lift.
  destruct (parse_time date) as [d|e]; [|done].
  simpl. destruct (GeosOld.local_filename _ path) as [filename|e]; [|done].
  run_tail.
Qed.

Lemma old_goes_url_eq sat d :
  GeosOld.goes_url sat d
  = Geos.goes_url sat ("xrsf-l2-flx1s_science", "sci_xrsf-l2-flx1s_g", "_v2-1-0") d.
Proof. reflexivity. Qed.

(** What [reuse_or_fetch] can print and request. *)
Lemma reuse_or_fetch_effects url filename w :
  (stdout (reuse_or_fetch url filename w).2 = stdout w
   ∨ stdout (reuse_or_fetch url filename w).2 = stdout w ++ ["Download failed"])
  ∧ (requests (reuse_or_fetch url filename w).2 = requests w
     ∨ requests (reuse_or_fetch url filename w).2 = requests w ++ [(url, filename)]).
Proof.
  unfold reuse_or_fetch.
  destruct (bool_decide (is_Some (files w !! filename))); [by auto|].
  destruct (urlretrieve url filename (files w)) as [[[]|e] fs]; cbn; auto.
Qed.

Lemma reuse_or_fetch_existing url filename w :
  is_Some (files w !! filename) →
  reuse_or_fetch url filename w = (Returned (Some filename), w).
Proof. intros Hf. unfold reuse_or_fetch. by rewrite (bool_decide_eq_true_2 _ Hf). Qed.

Lemma reuse_or_fetch_raised url filename w e fs :
  files w !! filename = None →
  urlretrieve url filename (files w) = (Raised e, fs) →
  reuse_or_fetch url filename w
  = (Returned None,
     mkWorld fs (stdout w ++ ["Download failed"]) (requests w ++ [(url, filename)])).
Proof.
  intros Hf Hr. unfold reuse_or_fetch.
  rewrite Hf, Hr. case_bool_decide as Hs; [by destruct Hs|done].
Qed.

Lemma reuse_or_fetch_no_file url filename w fs :
  files w !! filename = None →
  urlretrieve url filename (files w) = (Returned tt, fs) →
  fs !! filename = None →
  reuse_or_fetch url filename w
  = (Returned None, mkWorld fs (stdout w) (requests w ++ [(url, filename)])).
Proof.
  intros Hf Hr Hn. unfold reuse_or_fetch.
  rewrite Hf, Hr, Hn. case_bool_decide as Hs; [by destruct Hs|done].
Qed.

Lemma reuse_or_fetch_checked url filename w f :
  (reuse_or_fetch url filename w).1 = Returned (Some f) →
  f = filename ∧ is_Some (files (reuse_or_fetch url filename w).2 !! f).
Proof.
  unfold reuse_or_fetch.
  destruct (bool_decide (is_Some (files w !! filename))) eqn:E.
  - cbn. intros [= <-]. split; [done|]. by apply bool_decide_eq_true in E.
  - destruct (urlretrieve url filename (files w)) as [[[]|e] fs]; cbn; [|done].
    destruct (bool_decide (is_Some (fs !! filename))) eqn:E'; [|done].
    intros [= <-]. split; [done|]. by apply bool_decide_eq_true in E'.
Qed.

(** Unfolds a call of [get_goes] whose date parses and whose URL splits as
    given. *)
Lemma get_goes_known date sat type path d frags segs name w :
  parse_time date = Returned d →
  Geos.construct_path type = Returned frags →
  split "/" (Geos.goes_url sat frags d) = segs ++ [name] →
  Geos.get_goes date sat type path w
  = reuse_or_fetch (Geos.goes_url sat frags d) (named_under path name)
      (printed (Geos.goes_url sat frags d) w).
Proof.
  intros Hd Hc Hs. rewrite get_goes_steps, Hc, Hd. cbn zeta.
  by rewrite (local_filename_snoc _ _ _ _ Hs).
Qed.

Lemma old_get_goes_known date sat path d segs name w :
  parse_time date = Returned d →
  split "/" (GeosOld.goes_url sat d) = segs ++ [name] →
  GeosOld.get_goes date sat path w
  = reuse_or_fetch (GeosOld.goes_url sat d) (named_under path name) w.
Proof.
  intros Hd Hs. rewrite old_get_goes_steps, Hd. cbn zeta.
  by rewrite old_local_filename_eq, (local_filename_snoc _ _ _ _ Hs).
Qed.

(** C1: for every date that parses to [d], every satellite number and every
    type string, the URL [get_goes] uses is [NGDC_URL] joined with
    "goes{sat}/l2/data/{f1}/{YYYY}/{MM}/{f2}{sat}_d{YYYYMMDD}{f3}.nc", where
    [f1; f2; f3] is the row of the static table the type selects and the date
    parts are [strftime] of [d]: it is the line the call prints first, and the
    URL of any request the call adds. *)
Theorem get_goes_url_from_table date sat type path d w :
  parse_time date = Returned d →
  ∃ f1 f2 f3,
    table_row type = [f1; f2; f3] ∧
    let url := os_path_join Geos.NGDC_URL (url_template sat f1 f2 f3 d) in
    url = Geos.NGDC_URL +:+ url_template sat f1 f2 f3 d ∧
    (∃ out, stdout (Geos.get_goes date sat type path w).2 = stdout w ++ url :: out) ∧
    (∀ rq, rq ∈ requests (Geos.get_goes date sat type path w).2 →
           rq ∈ requests w ∨ rq.1 = url).
Proof.
  intros Hd.
  destruct (construct_path_row type) as (f1 & f2 & f3 & Hrow & Hc).
  exists f1, f2, f3. split; [exact Hrow|]. cbn zeta.
  pose proof (goes_url_template sat f1 f2 f3 d) as Hu.
  assert (Hj : os_path_join Geos.NGDC_URL (url_template sat f1 f2 f3 d)
               = Geos.goes_url sat (f1, f2, f3) d) by reflexivity.
  rewrite Hj. split; [exact Hu|].
  destruct (split_snoc "/" (Geos.goes_url sat (f1, f2, f3) d)) as (segs & name & Hs).
  rewrite (get_goes_known _ _ _ path _ _ _ _ w Hd Hc Hs).
  destruct (reuse_or_fetch_effects (Geos.goes_url sat (f1, f2, f3) d)
              (named_under path name) (printed (Geos.goes_url sat (f1, f2, f3) d) w))
    as [Hout Hreq].
  split.
  - destruct Hout as [-> | ->]; cbn; [exists []|exists ["Download failed"]];
      by rewrite <- ?app_assoc.
  - intros rq. destruct Hreq as [-> | ->]; cbn; [by left|].
    rewrite elem_of_app, list_elem_of_singleton. intros [?| ->]; [by left|by right].
Qed.

(** C2: when a file already exists under the computed local name (the last
    '/'-separated segment of the URL, under [path] when one is given),
    [get_goes] returns that name, and leaves the files and the list of
    requests as they were; in both scripts. *)
Theorem get_goes_reuses_existing_file :
  (∀ date sat type path d frags segs name w,
     parse_time date = Returned d →
     Geos.construct_path type = Returned frags →
     split "/" (Geos.goes_url sat frags d) = segs ++ [name] →
     is_Some (files w !! named_under path name) →
     (Geos.get_goes date sat type path w).1 = Returned (Some (named_under path name))
     ∧ files (Geos.get_goes date sat type path w).2 = files w
     ∧ requests (Geos.get_goes date sat type path w).2 = requests w)
  ∧ (∀ date sat path d segs name w,
       parse_time date = Returned d →
       split "/" (GeosOld.goes_url sat d) = segs ++ [name] →
       is_Some (files w !! named_under path name) →
       GeosOld.get_goes date sat path w = (Returned (Some (named_under path name)), w)).
Proof.
  split.
  - intros * Hd Hc Hs Hf.
    rewrite (get_goes_known _ _ _ _ _ _ _ _ w Hd Hc Hs).
    by rewrite reuse_or_fetch_existing.
  - intros * Hd Hs Hf.
    rewrite (old_get_goes_known _ _ _ _ _ _ w Hd Hs).
    by apply reuse_or_fetch_existing.
Qed.

(** C3: when the local file does not exist and the retrieval raises,
    [get_goes] prints "Download failed" and returns [None]: the exception is
    not passed on, and the one request is all that was issued; in both
    scripts. *)
Theorem get_goes_download_failed :
  (∀ date sat type path d frags segs name w e fs,
     parse_time date = Returned d →
     Geos.construct_path type = Returned frags →
     split "/" (Geos.goes_url sat frags d) = segs ++ [name] →
     files w !! named_under path name = None →
     urlretrieve (Geos.goes_url sat frags d) (named_under path name) (files w)
     = (Raised e, fs) →
     Geos.get_goes date sat type path w
     = (Returned None,
        mkWorld fs
          (stdout w ++ [Geos.goes_url sat frags d; "Download failed"])
          (requests w ++ [(Geos.goes_url sat frags d, named_under path name)])))
  ∧ (∀ date sat path d segs name w e fs,
       parse_time date = Returned d →
       split "/" (GeosOld.goes_url sat d) = segs ++ [name] →
       files w !! named_under path name = None →
       urlretrieve (GeosOld.goes_url sat d) (named_under path name) (files w)
       = (Raised e, fs) →
       GeosOld.get_goes date sat path w
       = (Returned None,
          mkWorld fs (stdout w ++ ["Download failed"])
            (requests w ++ [(GeosOld.goes_url sat d, named_under path name)]))).
Proof.
  split.
  - intros * Hd Hc Hs Hf Hr.
    rewrite (get_goes_known _ _ _ _ _ _ _ _ w Hd Hc Hs).
    rewrite (reuse_or_fetch_raised _ _ _ e fs) by done.
    cbn. by rewrite <- app_assoc.
  - intros * Hd Hs Hf Hr.
    rewrite (old_get_goes_known _ _ _ _ _ _ w Hd Hs).
    by apply (reuse_or_fetch_raised _ _ _ e).
Qed.

(** C4: a call of [get_goes] adds at most one request to those already
    issued, and none when the local file already exists. *)
Theorem get_goes_at_most_one_request date sat type path w :
  (∃ new, requests (Geos.get_goes date sat type path w).2 = requests w ++ new
          ∧ (length new ≤ 1)%nat)
  ∧ (∀ d frags segs name,
       parse_time date = Returned d →
       Geos.construct_path type = Returned frags →
       split "/" (Geos.goes_url sat frags d) = segs ++ [name] →
       is_Some (files w !! named_under path name) →
       requests (Geos.get_goes date sat type path w).2 = requests w).
Proof.
  split.
  - rewrite get_goes_steps.
    destruct (Geos.construct_path type) as [frags|e];
      [|exists []; split; [by rewrite app_nil_r|simpl; lia]].
    destruct (parse_time date) as [d|e]; [|exists []; split; [by rewrite app_nil_r|simpl; lia]].
    cbn zeta.
    destruct (Geos.local_filename _ path) as [filename|e];
      [|exists []; split; [by rewrite app_nil_r|simpl; lia]].
    destruct (reuse_or_fetch_effects (Geos.goes_url sat frags d) filename
                (printed (Geos.goes_url sat frags d) w)) as [_ [-> | ->]]; cbn.
    + exists []. split; [by rewrite app_nil_r|simpl; lia].
    + eexists. split; [reflexivity|]. simpl. lia.
  - intros * Hd Hc Hs Hf.
    rewrite (get_goes_known _ _ _ _ _ _ _ _ w Hd Hc Hs).
    by rewrite reuse_or_fetch_existing.
Qed.

(** C6: the old script computes the URL and the local file name of the new
    one called with its default type, so the two [get_goes] return the same
    value, leave the same files and issue the same requests (the new one
    also prints the URL); and the two [make_goes_timeseries] are the same
    function. *)
Theorem old_script_agrees_with_new :
  (∃ frags,
     Geos.construct_path Geos.default_type = Returned frags
     ∧ ∀ sat d path,
         GeosOld.goes_url sat d = Geos.goes_url sat frags d
         ∧ GeosOld.local_filename (GeosOld.goes_url sat d) path
           = Geos.local_filename (Geos.goes_url sat frags d) path)
  ∧ (∀ date sat path w,
       (GeosOld.get_goes date sat path w).1
       = (Geos.get_goes date sat Geos.default_type path w).1
       ∧ files (GeosOld.get_goes date sat path w).2
         = files (Geos.get_goes date sat Geos.default_type path w).2
       ∧ requests (GeosOld.get_goes date sat path w).2
         = requests (Geos.get_goes date sat Geos.default_type path w).2)
  ∧ (∀ file w, GeosOld.make_goes_timeseries file w = Geos.make_goes_timeseries file w).
Proof.
  split; [|split].
  - eexists. split; [reflexivity|]. intros sat d path.
    by rewrite old_goes_url_eq, old_local_filename_eq.
  - intros date sat path w.
    rewrite get_goes_steps, old_get_goes_steps.
    change (Geos.construct_path Geos.default_type)
      with (Returned ("xrsf-l2-flx1s_science", "sci_xrsf-l2-flx1s_g", "_v2-1-0")).
    destruct (parse_time date) as [d|e]; [|done]. cbn zeta.
    rewrite old_local_filename_eq, old_goes_url_eq.
    destruct (Geos.local_filename _ path) as [filename|e]; [|done].
    unfold reuse_or_fetch, printed. cbn.
    destruct (bool_decide (is_Some (files w !! filename))); [done|].
    by destruct (urlretrieve _ filename (files w)) as [[[]|e] fs].
  - intros file w. unfold GeosOld.make_goes_timeseries, Geos.make_goes_timeseries.
    by destruct (load_dataset file w) as [[data|e] w'].
Qed.

(** C8: [construct_path] returns for every string; a type that is none of
    the nine listed ones gets the XRS_X1S fragments, so [get_goes] behaves on
    it as on 'xrs-x1s'; the default 'xrs' of [get_goes] is such a type. *)
Theorem construct_path_total_with_default :
  (∀ type, ∃ frags, Geos.construct_path type = Returned frags)
  ∧ (∀ type,
       type ∉ ["xrs-x1s"; "xrs-sum"; "xrs-loc"; "xrs-det"; "xrs-kd1"; "ephe";
               "euv-avg1d"; "euv-avg1m"; "mag-hi"] →
       Geos.construct_path type
       = Returned ("xrsf-l2-flx1s_science", "sci_xrsf-l2-flx1s_g", "_v2-1-0")
       ∧ Geos.construct_path type = Geos.construct_path "xrs-x1s"
       ∧ ∀ date sat path,
           Geos.get_goes date sat type path = Geos.get_goes date sat "xrs-x1s" path)
  ∧ Geos.default_type ∉ ["xrs-x1s"; "xrs-sum"; "xrs-loc"; "xrs-det"; "xrs-kd1";
                         "ephe"; "euv-avg1d"; "euv-avg1m"; "mag-hi"].
Proof.
  split; [|split].
  - intros type. destruct (construct_path_row type) as (f1 & f2 & f3 & _ & Hc). eauto.
  - intros type Hn.
    assert (Hc : Geos.construct_path type = Geos.construct_path "xrs-x1s")
      by (by rewrite (construct_path_unrecognized type Hn)).
    split; [by rewrite Hc|]. split; [exact Hc|].
    intros date sat path. unfold Geos.get_goes. by rewrite Hc.
  - unfold Geos.default_type. intros Hin.
    repeat (apply elem_of_cons in Hin as [Hin|Hin]; [discriminate Hin|]).
    by apply elem_of_nil in Hin.
Qed.

(** C9: a name returned by [get_goes] is that of a file the final world
    holds (it passed the existence test that precedes each [return filename]);
    and when the retrieval returns without raising but leaves no file under
    the name, the call returns [None] and prints no failure message; in both
    scripts. *)
Theorem get_goes_returns_only_checked_names :
  (∀ date sat type path w f,
     (Geos.get_goes date sat type path w).1 = Returned (Some f) →
     is_Some (files (Geos.get_goes date sat type path w).2 !! f))
  ∧ (∀ date sat path w f,
       (GeosOld.get_goes date sat path w).1 = Returned (Some f) →
       is_Some (files (GeosOld.get_goes date sat path w).2 !! f))
  ∧ (∀ date sat type path d frags segs name w fs,
       parse_time date = Returned d →
       Geos.construct_path type = Returned frags →
       split "/" (Geos.goes_url sat frags d) = segs ++ [name] →
       files w !! named_under path name = None →
       urlretrieve (Geos.goes_url sat frags d) (named_under path name) (files w)
       = (Returned tt, fs) →
       fs !! named_under path name = None →
       Geos.get_goes date sat type path w
       = (Returned None,
          mkWorld fs (stdout w ++ [Geos.goes_url sat frags d])
            (requests w ++ [(Geos.goes_url sat frags d, named_under path name)])))
  ∧ (∀ date sat path d segs name w fs,
       parse_time date = Returned d →
       split "/" (GeosOld.goes_url sat d) = segs ++ [name] →
       files w !! named_under path name = None →
       urlretrieve (GeosOld.goes_url sat d) (named_under path name) (files w)
       = (Returned tt, fs) →
       fs !! named_under path name = None →
       GeosOld.get_goes date sat path w
       = (Returned None,
          mkWorld fs (stdout w)
            (requests w ++ [(GeosOld.goes_url sat d, named_under path name)]))).
Proof.
  repeat split.
  - intros date sat type path w f. rewrite get_goes_steps.
    destruct (Geos.construct_path type) as [frags|e]; [|done].
    destruct (parse_time date) as [d|e]; [|done]. cbn zeta.
    destruct (Geos.local_filename _ path) as [filename|e]; [|done].
    intros Hr. by apply reuse_or_fetch_checked in Hr as [_ Hr].
  - intros date sat path w f. rewrite old_get_goes_steps.
    destruct (parse_time date) as [d|e]; [|done]. cbn zeta.
    destruct (GeosOld.local_filename _ path) as [filename|e]; [|done].
    intros Hr. by apply reuse_or_fetch_checked in Hr as [_ Hr].
  - intros * Hd Hc Hs Hf Hr Hn.
    rewrite (get_goes_known _ _ _ _ _ _ _ _ w Hd Hc Hs).
    by rewrite (reuse_or_fetch_no_file _ _ _ fs).
  - intros * Hd Hs Hf Hr Hn.
    rewrite (old_get_goes_known _ _ _ _ _ _ w Hd Hs).
    by apply reuse_or_fetch_no_file.
Qed.

(** C10: for an interval that is none of '7-day', '3-day', '1-day' and
    '6-hour', [read_recent_noaa] prints the warning with the allowed keys and
    then raises [KeyError] on the dictionary lookup: no default interval, no
    result. *)
Theorem read_recent_noaa_invalid_interval interval w :
  interval ∉ ["7-day"; "3-day"; "1-day"; "6-hour"] →
  Geos.read_recent_noaa interval w
  = (Raised (KeyError interval),
     mkWorld (files w)
       (stdout w
        ++ ["interval must be one of dict_keys(['7-day', '3-day', '1-day', '6-hour'])"])
       (requests w)).
Proof.
  intros Hn. unfold Geos.read_recent_noaa.
  change (dict_keys Geos.dict_interval) with ["7-day"; "3-day"; "1-day"; "6-hour"].
  rewrite bool_decide_eq_false_2 by exact Hn.
  assert (Hl : dict_getitem Geos.dict_interval interval = Raised (KeyError interval)).
  { unfold Geos.dict_interval. cbn [dict_getitem].
    repeat
      (match goal with
       | |- context [String.eqb ?k interval] =>
           destruct (String.eqb_spec k interval) as [<-|_];
           [exfalso; apply Hn; set_solver|]
       end).
    reflexivity. }
  unfold mbind, M_bind, lift, print. rewrite Hl. reflexivity.
Qed.

(** The frame both parsing functions build, once sorted, is an [xrs_table]
    holding the rows it was built from. *)
Lemma sorted_frame_is_xrs_table (xrsa xrsb : list flux) times df units :
  new_DataFrame [("xrsa", xrsa); ("xrsb", xrsb)] times = Returned df →
  xrs_table (mkTimeSeries (sort_index df) units)
  ∧ fst <$> rows (sort_index df) ≡ₚ times.
Proof.
  intros Hdf. apply new_DataFrame_shape in Hdf as (Hc & Hi & Hl).
  split; [split; [|split]|]; simpl ts_data.
  - by rewrite sort_index_columns, Hc.
  - by rewrite sort_index_rows.
  - apply sort_index_sorted.
  - by rewrite sort_index_rows, Hi.
Qed.

(** A dataset with both flux variables and times that parse, all of one
    length, is always turned into a table. *)
Lemma make_goes_timeseries_returns file w data xrsa xrsb times :
  open_dataset file (files w) = Returned data →
  data_vars data !! "xrsa_flux" = Some xrsa →
  data_vars data !! "xrsb_flux" = Some xrsb →
  time_index data = Returned times →
  length xrsa = length times →
  length xrsb = length times →
  ∃ t, Geos.make_goes_timeseries file w = (Returned t, w)
       ∧ fst <$> rows (ts_data t) ≡ₚ times.
Proof.
  intros Ho Ha Hb Ht Hla Hlb.
  destruct (frame_rows_same_length [xrsa; xrsb] times) as [rs Hrs];
    [by repeat constructor|].
  unfold Geos.make_goes_timeseries, load_dataset, data_var,
    new_DataFrame, mbind, M_bind, lift.
  rewrite Ho, Hb, Ha, Ht. cbn. rewrite Hrs.
  eexists. split; [reflexivity|]. cbn.
  rewrite sort_rows_perm.
  by apply frame_rows_shape in Hrs as [-> _].
Qed.

Lemma parse_times_length tags times :
  parse_times tags = Returned times → length times = length tags.
Proof.
  revert times. induction tags as [|x tags IH]; intros times; simpl.
  - by intros [= <-].
  - unfold mbind, outcome_bind.
    destruct (parse_time x) as [t|e]; [|done].
    destruct (parse_times tags) as [rest|e]; [|done].
    intros [= <-]. simpl. by rewrite (IH rest).
Qed.

Lemma select_rows_nonempty {A} name (field : A → string) keep (frame : list A) :
  frame ≠ [] → select_rows name field keep frame = Returned (List.filter keep frame).
Proof. by destruct frame. Qed.

Lemma select_rows_empty {A} name (field : A → string) keep :
  select_rows name field keep [] = Raised (KeyError name).
Proof. reflexivity. Qed.

(** A feed that is not empty, with as many long-band as short-band records,
    whose short-band time tags parse, is always turned into a table. *)
Lemma read_recent_noaa_returns interval name w data times :
  dict_getitem Geos.dict_interval interval = Returned name →
  read_json (Geos.SWPC_URL +:+ "/" +:+ name) = Returned data →
  data ≠ [] →
  parse_times (time_tag <$> List.filter Geos.short_band data) = Returned times →
  length (List.filter Geos.long_band data) = length (List.filter Geos.short_band data) →
  ∃ t, Geos.read_recent_noaa interval w = (Returned t, w)
       ∧ fst <$> rows (ts_data t) ≡ₚ times.
Proof.
  intros Hn Hj Hne Hp Hl.
  assert (Hk : interval ∈ dict_keys Geos.dict_interval).
  { revert Hn. unfold Geos.dict_interval. cbn [dict_getitem dict_keys fmap list_fmap fst].
    repeat
      (match goal with
       | |- context [String.eqb ?k interval] =>
           destruct (String.eqb_spec k interval) as [<-|_]; [set_solver|]
       end).
    done. }
  pose proof (parse_times_length _ _ Hp) as Ht. rewrite length_fmap in Ht.
  destruct (frame_rows_same_length
              [flux_value <$> List.filter Geos.short_band data;
               flux_value <$> List.filter Geos.long_band data] times) as [rs Hrs].
  { repeat constructor; rewrite length_fmap; congruence. }
  unfold Geos.read_recent_noaa, mbind, M_bind, lift.
  rewrite (bool_decide_eq_true_2 _ Hk), Hn, Hj.
  rewrite !(select_rows_nonempty _ _ _ _ Hne), Hp.
  unfold new_DataFrame. cbn [fmap list_fmap snd fst]. rewrite Hrs.
  eexists. split; [reflexivity|]. cbn.
  rewrite sort_rows_perm.
  by apply frame_rows_shape in Hrs as [-> _].
Qed.


(** *** The loop of [get_goes_by_date] *)

Lemma for_each_app {A} (l1 l2 : list A) (body : A → M unit) w :
  for_each (l1 ++ l2) body w = (for_each l1 body;; for_each l2 body) w.
Proof.
  revert w. induction l1 as [|x l1 IH]; intros w; [done|].
  simpl. unfold mbind, M_bind in *.
  destruct (body x w) as [[u|e] w1]; [|done].
  apply IH.
Qed.

Lemma for_each_flat_map {A B} (f : A → list B) (l : list A) (body : B → M unit) w :
  for_each l (λ x, for_each (f x) body) w = for_each (flat_map f l) body w.
Proof.
  revert w. induction l as [|x l IH]; intros w; [done|].
  simpl. rewrite for_each_app. unfold mbind, M_bind.
  destruct (for_each (f x) body w) as [[u|e] w1]; [|done].
  apply IH.
Qed.

Lemma for_each_ext {A} (l : list A) (body1 body2 : A → M unit) w :
  (∀ x w, body1 x w = body2 x w) →
  for_each l body1 w = for_each l body2 w.
Proof.
  intros Hb. revert w. induction l as [|x l IH]; intros w; [done|].
  simpl. unfold mbind, M_bind. rewrite Hb.
  destruct (body2 x w) as [[u|e] w1]; [|done].
  apply IH.
Qed.

(** The three nested loops visit [combinations] in order. *)
Lemma get_goes_by_date_flat w : Geos.get_goes_by_date w = attempts combinations w.
Proof.
  unfold Geos.get_goes_by_date, attempts, combinations.
  rewrite <- for_each_flat_map. apply for_each_ext. intros type w1.
  rewrite <- for_each_flat_map. apply for_each_ext. intros sat w2.
  rewrite <- for_each_flat_map. apply for_each_ext. intros date w3.
  unfold attempt. simpl. unfold mbind, M_bind.
  by destruct (try_except _ _ w3) as [[[]|e] w4].
Qed.

Lemma attempt_returns c w : (attempt c w).1 = Returned tt.
Proof.
  unfold attempt, try_except.
  by destruct (Geos.process _ _ _ w) as [[[]|e] w1].
Qed.

Lemma attempt_world c w : (attempt c w).2 = (Geos.process c.1.1 c.1.2 c.2 w).2.
Proof.
  unfold attempt, try_except.
  by destruct (Geos.process _ _ _ w) as [[[]|e] w1].
Qed.

Lemma attempts_returns cs w : (attempts cs w).1 = Returned tt.
Proof.
  revert w. induction cs as [|c cs IH]; intros w; [done|].
  unfold attempts in *. simpl. unfold mbind, M_bind.
  pose proof (attempt_returns c w) as Hc.
  destruct (attempt c w) as [[[]|e] w1]; [apply IH|done].
Qed.

Lemma attempts_cons c cs w :
  (attempts (c :: cs) w).2 = (attempts cs (attempt c w).2).2.
Proof.
  unfold attempts. simpl. unfold mbind, M_bind.
  pose proof (attempt_returns c w) as Hc.
  by destruct (attempt c w) as [[[]|e] w1].
Qed.

Lemma attempts_app cs1 cs2 w :
  (attempts (cs1 ++ cs2) w).2 = (attempts cs2 (attempts cs1 w).2).2.
Proof.
  revert w. induction cs1 as [|c cs1 IH]; intros w; [done|].
  rewrite <- app_comm_cons, !attempts_cons. apply IH.
Qed.

(** Nothing the scripts do takes back a printed line. *)
Lemma get_goes_keeps_output date sat type path w :
  stdout w `prefix_of` stdout (Geos.get_goes date sat type path w).2.
Proof.
  rewrite get_goes_steps.
  destruct (Geos.construct_path type) as [frags|e]; [|done].
  destruct (parse_time date) as [d|e]; [|done]. cbn zeta.
  destruct (Geos.local_filename _ path) as [filename|e];
    [|by apply prefix_app_r].
  destruct (reuse_or_fetch_effects (Geos.goes_url sat frags d) filename
              (printed (Geos.goes_url sat frags d) w)) as [[-> | ->] _]; cbn.
  - by apply prefix_app_r.
  - rewrite <- app_assoc. by apply prefix_app_r.
Qed.

Lemma make_goes_timeseries_world file w : (Geos.make_goes_timeseries file w).2 = w.
Proof.
  unfold Geos.make_goes_timeseries, load_dataset, mbind, M_bind, lift, mret, M_ret.
  destruct (open_dataset file (files w)) as [data|e]; [|done].
  destruct (data_var data "xrsb_flux") as [xrsb|e]; [|done].
  destruct (data_var data "xrsa_flux") as [xrsa|e]; [|done].
  destruct (time_index data) as [times|e]; [|done].
  by destruct (new_DataFrame _ times) as [df|e].
Qed.

Lemma write_table_output file t w : stdout (write_table file t w).2 = stdout w.
Proof. unfold write_table. by destruct (table_write file t (files w)). Qed.

(** The output of one iteration's body: what was there, and when the body
    ran to its end, the line naming its output file last. *)
Lemma process_output type sat date w :
  stdout w `prefix_of` stdout (Geos.process type sat date w).2
  ∧ ((Geos.process type sat date w).1 = Returned tt →
     ("  ==> " +:+ Geos.output_file type sat date)
       ∈ stdout (Geos.process type sat date w).2).
Proof.
  unfold Geos.process. cbn zeta. unfold mbind, M_bind.
  pose proof (get_goes_keeps_output date sat type (Some Geos.DATA_PATH) w) as Hg.
  destruct (Geos.get_goes date sat type (Some Geos.DATA_PATH) w) as [[file|e] w1];
    [|by split].
  pose proof (make_goes_timeseries_world file w1) as Hm.
  destruct (Geos.make_goes_timeseries file w1) as [[goes_xrs|e] w2];
    simpl in Hm; subst w2; [|by split].
  pose proof (write_table_output (Geos.output_file type sat date) goes_xrs w1) as Hw.
  destruct (write_table _ goes_xrs w1) as [[[]|e] w3]; simpl in Hw, Hg.
  - unfold print. cbn. rewrite Hw. split.
    + etrans; [exact Hg|]. by apply prefix_app_r.
    + intros _. apply elem_of_app. right. by apply list_elem_of_singleton.
  - cbn. rewrite Hw. by split.
Qed.

Lemma attempts_keep_output cs w : stdout w `prefix_of` stdout (attempts cs w).2.
Proof.
  revert w. induction cs as [|c cs IH]; intros w; [done|].
  rewrite attempts_cons. etrans; [|apply IH].
  rewrite attempt_world. apply process_output.
Qed.

(** *** Which files the loop touches *)

Lemma goes_url_suffix sat frags d : ∃ u, Geos.goes_url sat frags d = u +:+ ".nc".
Proof.
  destruct frags as [[f1 f2] f3]. rewrite goes_url_template. unfold url_template.
  exists (Geos.NGDC_URL +:+ "goes" +:+ format_d sat +:+ "/l2/data/" +:+ f1 +:+ "/"
          +:+ strftime d "%Y" +:+ "/" +:+ strftime d "%m" +:+ "/" +:+ f2
          +:+ format_d sat +:+ "_d" +:+ strftime d "%Y%m%d" +:+ f3).
  by rewrite !append_assoc.
Qed.

(** The file a download goes to ends in 'c' (of '.nc'). *)
Lemma download_name_last_char sat frags d segs name :
  split "/" (Geos.goes_url sat frags d) = segs ++ [name] →
  last_char (named_under (Some Geos.DATA_PATH) name) = Some "c"%char.
Proof.
  intros Hs. destruct (goes_url_suffix sat frags d) as [u Hu].
  destruct (split_suffix "/" u ".nc" eq_refl) as (segs' & stem & Hs').
  rewrite <- Hu, Hs in Hs'. apply app_inj_tail in Hs' as [_ ->].
  assert (Hn : last_char (stem +:+ ".nc") = Some "c"%char)
    by (by apply last_char_app_r).
  unfold named_under, os_path_join.
  destruct (startswith (stem +:+ ".nc") "/"); [exact Hn|].
  change (String.eqb Geos.DATA_PATH "" || endswith Geos.DATA_PATH "/") with false.
  cbn iota. by do 2 apply last_char_app_r.
Qed.

(** An output file ends in 'n' (of '.json'). *)
Lemma output_file_last_char type sat date :
  last_char (Geos.output_file type sat date) = Some "n"%char.
Proof. unfold Geos.output_file. by repeat apply last_char_app_r. Qed.

Lemma reuse_or_fetch_other_files url filename w f :
  writes_target_only →
  f ≠ filename →
  files (reuse_or_fetch url filename w).2 !! f = files w !! f.
Proof.
  intros (Hret & _ & _) Hf. unfold reuse_or_fetch.
  destruct (bool_decide (is_Some (files w !! filename))); [done|].
  specialize (Hret url filename (files w) f Hf).
  by destruct (urlretrieve url filename (files w)) as [[[]|e] fs].
Qed.

Lemma get_goes_other_files date sat type w f :
  writes_target_only →
  last_char f ≠ Some "c"%char →
  files (Geos.get_goes date sat type (Some Geos.DATA_PATH) w).2 !! f = files w !! f.
Proof.
  intros Hframe Hf. rewrite get_goes_steps.
  destruct (Geos.construct_path type) as [frags|e]; [|done].
  destruct (parse_time date) as [d|e]; [|done]. cbn zeta.
  destruct (split_snoc "/" (Geos.goes_url sat frags d)) as (segs & name & Hs).
  rewrite (local_filename_snoc _ (Some Geos.DATA_PATH) _ _ Hs).
  rewrite reuse_or_fetch_other_files; [done|exact Hframe|].
  intros ->. by rewrite (download_name_last_char _ _ _ _ _ Hs) in Hf.
Qed.

Lemma process_other_files type sat date w f :
  writes_target_only →
  last_char f ≠ Some "c"%char →
  f ≠ Geos.output_file type sat date →
  files (Geos.process type sat date w).2 !! f = files w !! f.
Proof.
  intros Hframe Hc Hf. unfold Geos.process. cbn zeta. unfold mbind, M_bind.
  pose proof (get_goes_other_files date sat type w f Hframe Hc) as Hg.
  destruct (Geos.get_goes date sat type (Some Geos.DATA_PATH) w) as [[file|e] w1];
    [|exact Hg].
  pose proof (make_goes_timeseries_world file w1) as Hm.
  destruct (Geos.make_goes_timeseries file w1) as [[t|e] w2];
    simpl in Hm; subst w2; [|exact Hg].
  destruct Hframe as (_ & Hwr & _).
  specialize (Hwr (Geos.output_file type sat date) t (files w1) f Hf).
  unfold write_table.
  destruct (table_write _ t (files w1)) as [[[]|e] fs]; cbn in *; congruence.
Qed.

Lemma attempts_other_files cs w f :
  writes_target_only →
  last_char f ≠ Some "c"%char →
  Forall (λ c, f ≠ Geos.output_file c.1.1 c.1.2 c.2) cs →
  files (attempts cs w).2 !! f = files w !! f.
Proof.
  intros Hframe Hc Hcs. revert w. induction Hcs as [|c cs Hf _ IH]; intros w; [done|].
  rewrite attempts_cons, IH, attempt_world.
  by apply process_other_files.
Qed.

(** What a body that ran to its end did: the file [get_goes] returned was
    parsed, and the writer, given the table and the output file, returned
    with the files the body leaves. *)
Lemma process_returned type sat date w :
  (Geos.process type sat date w).1 = Returned tt →
  ∃ file t w1,
    Geos.get_goes date sat type (Some Geos.DATA_PATH) w = (Returned file, w1)
    ∧ Geos.make_goes_timeseries file w1 = (Returned t, w1)
    ∧ table_write (Geos.output_file type sat date) t (files w1)
      = (Returned tt, files (Geos.process type sat date w).2).
Proof.
  unfold Geos.process. cbn zeta. unfold mbind, M_bind.
  destruct (Geos.get_goes date sat type (Some Geos.DATA_PATH) w)
    as [[file|e] w1]; [|done].
  pose proof (make_goes_timeseries_world file w1) as Hm.
  destruct (Geos.make_goes_timeseries file w1) as [[t|e] w2] eqn:Ht;
    simpl in Hm; subst w2; [|done].
  unfold write_table.
  destruct (table_write _ t (files w1)) as [[[]|e] fs] eqn:Hw; cbn; [|done].
  intros _. by exists file, t, w1.
Qed.

(** Conversely, a body whose download, parsing and writing go through runs
    to its end and leaves the files the writer left. *)
Lemma process_runs type sat date w file w1 t fs :
  Geos.get_goes date sat type (Some Geos.DATA_PATH) w = (Returned file, w1) →
  Geos.make_goes_timeseries file w1 = (Returned t, w1) →
  table_write (Geos.output_file type sat date) t (files w1) = (Returned tt, fs) →
  (Geos.process type sat date w).1 = Returned tt
  ∧ files (Geos.process type sat date w).2 = fs.
Proof.
  intros Hg Hm Hw. unfold Geos.process. cbn zeta. unfold mbind, M_bind.
  rewrite Hg, Hm. unfold write_table. by rewrite Hw.
Qed.

(** The 39 combinations have 39 different output files. *)
Lemma output_files_distinct :
  NoDup ((λ c, Geos.output_file c.1.1 c.1.2 c.2) <$> combinations).
Proof. apply (bool_decide_unpack _). by vm_compute. Qed.

(** C7: [get_goes_by_date] never raises; whatever happened in the earlier
    iterations, every combination gets its turn and all later ones run after
    it, whether its body raised or not.  A combination whose own download,
    parsing and writing go through has its output file written by the
    writer, whatever failed before it; the line that follows the writing is
    in the final output; and when the library calls touch no file but the one
    they are given, the output file is there when the loop ends, whatever
    fails after it. *)
Theorem get_goes_by_date_continues_after_failure w :
  (Geos.get_goes_by_date w).1 = Returned tt
  ∧ ∀ pre type sat date post,
      combinations = pre ++ (type, sat, date) :: post →
      (Geos.get_goes_by_date w).2
      = (attempts post (Geos.process type sat date (attempts pre w).2).2).2
      ∧ ((Geos.process type sat date (attempts pre w).2).1 = Returned tt →
         ("  ==> " +:+ Geos.output_file type sat date)
           ∈ stdout (Geos.get_goes_by_date w).2)
      ∧ (∀ file w1 t fs,
           Geos.get_goes date sat type (Some Geos.DATA_PATH) (attempts pre w).2
           = (Returned file, w1) →
           Geos.make_goes_timeseries file w1 = (Returned t, w1) →
           table_write (Geos.output_file type sat date) t (files w1)
           = (Returned tt, fs) →
           (Geos.process type sat date (attempts pre w).2).1 = Returned tt
           ∧ files (Geos.process type sat date (attempts pre w).2).2 = fs)
      ∧ ((Geos.process type sat date (attempts pre w).2).1 = Returned tt →
         ∃ file t w1,
           Geos.get_goes date sat type (Some Geos.DATA_PATH) (attempts pre w).2
           = (Returned file, w1)
           ∧ Geos.make_goes_timeseries file w1 = (Returned t, w1)
           ∧ table_write (Geos.output_file type sat date) t (files w1)
             = (Returned tt, files (Geos.process type sat date (attempts pre w).2).2))
      ∧ (writes_target_only →
         (Geos.process type sat date (attempts pre w).2).1 = Returned tt →
         is_Some (files (Geos.get_goes_by_date w).2
                  !! Geos.output_file type sat date)).
Proof.
  rewrite get_goes_by_date_flat. split; [apply attempts_returns|].
  intros pre type sat date post Hcs.
  pose proof output_files_distinct as Hnd. rewrite Hcs in *.
  rewrite attempts_app, attempts_cons, attempt_world. cbn [fst snd].
  split; [done|]. split; [|split; [|split]].
  - intros Hr.
    destruct (process_output type sat date (attempts pre w).2) as [_ Hout].
    specialize (Hout Hr).
    pose proof (attempts_keep_output post
                  (Geos.process type sat date (attempts pre w).2).2) as [out ->].
    apply elem_of_app. by left.
  - intros file w1 t fs. apply process_runs.
  - apply process_returned.
  - intros Hframe Hr.
    rewrite fmap_app, fmap_cons in Hnd. cbn [fst snd] in Hnd.
    apply NoDup_app in Hnd as (_ & _ & Hnd). apply NoDup_cons in Hnd as [Hnot _].
    rewrite attempts_other_files.
    + destruct (process_returned _ _ _ _ Hr) as (file & t & w1 & _ & _ & Hw).
      destruct Hframe as (_ & _ & Hok). exact (Hok _ _ _ _ Hw).
    + exact Hframe.
    + by rewrite output_file_last_char.
    + apply Forall_forall. intros c Hc Heq. apply Hnot.
      rewrite Heq. apply list_elem_of_fmap. by exists c.
Qed.

End Properties.

(** ** Further properties of the two scripts *)

Section MoreTableFacts.
Context {F : Type}.
Implicit Types (cols : list (list F)) (index : list Z).

(** A frame is only made from columns as long as the index. *)
Lemma frame_rows_lengths cols index rs :
  frame_rows cols index = Some rs →
  Forall (λ c, length c = length index) cols.
Proof.
  revert cols rs. induction index as [|t index IH]; intros cols rs; simpl.
  - destruct (forallb is_nil cols) eqn:E; [|done]. intros _.
    apply Forall_forall. intros c Hc%list_elem_of_In.
    rewrite forallb_forall in E. specialize (E c Hc). by destruct c.
  - destruct (mapM head cols) as [cells|] eqn:Ec; [|done]. simpl.
    destruct (frame_rows (tail <$> cols) index) as [rest|] eqn:Er; [|done].
    intros _. apply IH in Er. apply Forall_fmap in Er.
    apply mapM_Some in Ec.
    apply Forall_forall. intros c Hc.
    apply list_elem_of_lookup in Hc as [i Hi].
    destruct (Forall2_lookup_l _ _ _ _ _ Ec Hi) as (y & _ & Hy).
    rewrite Forall_forall in Er.
    specialize (Er c (list_elem_of_lookup_2 _ _ _ Hi)).
    destruct c as [|x c]; [done|]. simpl in *. by rewrite Er.
Qed.

(** The rows of a two-column frame pair the columns position by position. *)
Lemma frame_rows_two (a b : list F) index rs :
  frame_rows [a; b] index = Some rs → rs = readings index a b.
Proof.
  revert a b rs. induction index as [|t index IH]; intros a b rs.
  - simpl. destruct a, b; simpl; try done. by intros [= <-].
  - destruct a as [|x a], b as [|y b]; try done.
    change (frame_rows [x :: a; y :: b] (t :: index))
      with (rest ← frame_rows [a; b] index; Some ((t, [x; y]) :: rest)).
    destruct (frame_rows [a; b] index) as [rest|] eqn:Er; [|done].
    simpl. intros [= <-]. by rewrite (IH _ _ _ Er).
Qed.

Lemma new_DataFrame_two (xrsa xrsb : list F) times :
  (length xrsa = length times ∧ length xrsb = length times
   ∧ new_DataFrame [("xrsa", xrsa); ("xrsb", xrsb)] times
     = Returned (mkFrame ["xrsa"; "xrsb"] (readings times xrsa xrsb)))
  ∨ ((length xrsa ≠ length times ∨ length xrsb ≠ length times)
     ∧ new_DataFrame [("xrsa", xrsa); ("xrsb", xrsb)] times
       = Raised (ValueError "Length of values does not match length of index")).
Proof.
  unfold new_DataFrame. cbn [fmap list_fmap fst snd].
  destruct (frame_rows [xrsa; xrsb] times) as [rs|] eqn:E.
  - left. pose proof (frame_rows_lengths _ _ _ E) as Hl.
    apply Forall_cons in Hl as [Ha Hl]. apply Forall_cons in Hl as [Hb _].
    by rewrite (frame_rows_two _ _ _ _ E).
  - right. split; [|done].
    destruct (decide (length xrsa = length times)) as [Ha|]; [|by left].
    destruct (decide (length xrsb = length times)) as [Hb|]; [|by right].
    destruct (frame_rows_same_length [xrsa; xrsb] times) as [rs Hrs];
      [by repeat constructor|congruence].
Qed.

End MoreTableFacts.

Section MoreProperties.
Context `{Externals}.

Lemma table_fragments_without_slash type f1 f2 f3 :
  table_row type = [f1; f2; f3] →
  has_char "/" f2 = false ∧ has_char "/" f3 = false.
Proof.
  unfold table_row, lookup_table. simpl.
  repeat (destruct (String.eqb type _); [by intros [= <- <- <-]|]).
  by intros [= <- <- <-].
Qed.

(** The URL ends in a segment made of the second fragment, the satellite
    number, the date and the third fragment. *)
Lemma goes_url_last_segment sat f1 f2 f3 d :
  has_char "/" f2 = false →
  has_char "/" f3 = false →
  has_char "/" (strftime d "%Y%m%d") = false →
  ∃ seg segs,
    split "/" (Geos.goes_url sat (f1, f2, f3) d)
    = seg :: segs
      ++ [f2 +:+ format_d sat +:+ "_d" +:+ strftime d "%Y%m%d" +:+ f3 +:+ ".nc"].
Proof.
  intros H2 H3 Hd.
  set (name := f2 +:+ format_d sat +:+ "_d" +:+ strftime d "%Y%m%d" +:+ f3 +:+ ".nc").
  assert (Hn : has_char "/" name = false).
  { unfold name. rewrite !has_char_app, H2, H3, Hd, format_d_without_slash. done. }
  assert (Hu : Geos.goes_url sat (f1, f2, f3) d
               = (Geos.NGDC_URL +:+ "goes" +:+ format_d sat +:+ "/l2/data/" +:+ f1
                  +:+ "/" +:+ strftime d "%Y" +:+ "/" +:+ strftime d "%m")
                 +:+ String "/" name).
  { rewrite goes_url_template. unfold url_template, name.
    rewrite !append_assoc. reflexivity. }
  rewrite Hu. by apply split_last_segment.
Qed.

(** X1: a date the parser rejects makes [get_goes] raise the parser's
    exception before anything is printed, looked up or requested; in both
    scripts. *)
Theorem get_goes_unparseable_date date e :
  parse_time date = Raised e →
  (∀ sat type path w, Geos.get_goes date sat type path w = (Raised e, w))
  ∧ (∀ sat path w, GeosOld.get_goes date sat path w = (Raised e, w)).
Proof.
  intros Hd. split.
  - intros sat type path w. rewrite get_goes_steps, Hd.
    by destruct (construct_path_row type) as (f1 & f2 & f3 & _ & ->).
  - intros sat path w. by rewrite old_get_goes_steps, Hd.
Qed.

(** X2: when the file is missing and the retrieval leaves it in place,
    [get_goes] returns the local name after exactly one request for the URL
    under that name, and prints no failure message; in both scripts. *)
Theorem get_goes_downloads_missing_file :
  (∀ date sat type path d frags segs name w fs,
     parse_time date = Returned d →
     Geos.construct_path type = Returned frags →
     split "/" (Geos.goes_url sat frags d) = segs ++ [name] →
     files w !! named_under path name = None →
     urlretrieve (Geos.goes_url sat frags d) (named_under path name) (files w)
     = (Returned tt, fs) →
     is_Some (fs !! named_under path name) →
     Geos.get_goes date sat type path w
     = (Returned (Some (named_under path name)),
        mkWorld fs (stdout w ++ [Geos.goes_url sat frags d])
          (requests w ++ [(Geos.goes_url sat frags d, named_under path name)])))
  ∧ (∀ date sat path d segs name w fs,
       parse_time date = Returned d →
       split "/" (GeosOld.goes_url sat d) = segs ++ [name] →
       files w !! named_under path name = None →
       urlretrieve (GeosOld.goes_url sat d) (named_under path name) (files w)
       = (Returned tt, fs) →
       is_Some (fs !! named_under path name) →
       GeosOld.get_goes date sat path w
       = (Returned (Some (named_under path name)),
          mkWorld fs (stdout w)
            (requests w ++ [(GeosOld.goes_url sat d, named_under path name)]))).
Proof.
  assert (Hrun : ∀ url filename w fs,
             files w !! filename = None →
             urlretrieve url filename (files w) = (Returned tt, fs) →
             is_Some (fs !! filename) →
             reuse_or_fetch url filename w
             = (Returned (Some filename),
                mkWorld fs (stdout w) (requests w ++ [(url, filename)]))).
  { intros url filename w fs Hf Hr Hs. unfold reuse_or_fetch.
    rewrite Hf, Hr. case_bool_decide as Hn; [by destruct Hn|].
    by rewrite (bool_decide_eq_true_2 _ Hs). }
  split.
  - intros * Hd Hc Hs Hf Hr Hfs.
    rewrite (get_goes_known _ _ _ _ _ _ _ _ w Hd Hc Hs).
    by rewrite (Hrun _ _ _ fs).
  - intros * Hd Hs Hf Hr Hfs.
    rewrite (old_get_goes_known _ _ _ _ _ _ w Hd Hs).
    by apply Hrun.
Qed.

(** X3: the local file is named after the second fragment, the satellite
    number, the date and the third fragment of the selected table row, under
    [path] when one is given: whenever the formatted date has no '/', that is
    the only name [get_goes] looks up, requests into, or returns. *)
Theorem get_goes_local_name date sat type path d f1 f2 f3 w :
  parse_time date = Returned d →
  table_row type = [f1; f2; f3] →
  has_char "/" (strftime d "%Y%m%d") = false →
  let name := f2 +:+ format_d sat +:+ "_d" +:+ strftime d "%Y%m%d" +:+ f3 +:+ ".nc" in
  Geos.local_filename (Geos.goes_url sat (f1, f2, f3) d) path
  = Returned (named_under path name)
  ∧ (∀ f, (Geos.get_goes date sat type path w).1 = Returned (Some f) →
          f = named_under path name)
  ∧ (∀ rq, rq ∈ requests (Geos.get_goes date sat type path w).2 →
           rq ∈ requests w ∨ rq.2 = named_under path name).
Proof.
  intros Hd Hrow Hymd name.
  destruct (table_fragments_without_slash _ _ _ _ Hrow) as [H2 H3].
  destruct (goes_url_last_segment sat f1 f2 f3 d H2 H3 Hymd) as (seg & segs & Hs).
  fold name in Hs.
  assert (Hc : Geos.construct_path type = Returned (f1, f2, f3)).
  { destruct (construct_path_row type) as (g1 & g2 & g3 & Hrow' & ->).
    rewrite Hrow in Hrow'. by injection Hrow' as -> -> ->. }
  rewrite app_comm_cons in Hs.
  split; [by apply (local_filename_snoc _ _ _ _ Hs)|].
  rewrite (get_goes_known _ _ _ path _ _ _ _ w Hd Hc Hs).
  split.
  - intros f Hf. by apply reuse_or_fetch_checked in Hf as [-> _].
  - intros rq.
    destruct (reuse_or_fetch_effects (Geos.goes_url sat (f1, f2, f3) d)
                (named_under path name) (printed (Geos.goes_url sat (f1, f2, f3) d) w))
      as [_ [-> | ->]]; cbn; [by left|].
    rewrite elem_of_app, list_elem_of_singleton. intros [?| ->]; [by left|by right].
Qed.

(** *** Parsing *)

Lemma make_goes_timeseries_known file w data xrsa xrsb times :
  open_dataset file (files w) = Returned data →
  data_vars data !! "xrsa_flux" = Some xrsa →
  data_vars data !! "xrsb_flux" = Some xrsb →
  time_index data = Returned times →
  Geos.make_goes_timeseries file w
  = (match new_DataFrame [("xrsa", xrsa); ("xrsb", xrsb)] times with
     | Returned df =>
         Returned (mkTimeSeries (sort_index df) [("xrsa", W_per_m2); ("xrsb", W_per_m2)])
     | Raised e => Raised e
     end, w).
Proof.
  intros Ho Ha Hb Ht.
  unfold Geos.make_goes_timeseries, load_dataset, data_var, mbind, M_bind, lift.
  rewrite Ho, Hb, Ha, Ht.
  by destruct (new_DataFrame _ times).
Qed.

Lemma time_index_parsed (data : Dataset flux TimeArray) array parsed :
  time_coord data = Some array →
  parse_time_array array = Returned parsed →
  time_index data = Returned (datetime <$> parsed).
Proof. intros Hc Hp. unfold time_index. by rewrite Hc, Hp. Qed.

(** X4: [make_goes_timeseries] keeps each reading with its time: the rows
    of the table it returns are the (time, xrsa, xrsb) triples of the data
    set, position by position, in some order; the three arrays then have one
    length, the units are W / m2, and the world is left as it was. *)
Theorem make_goes_timeseries_keeps_readings file w data xrsa xrsb array parsed t w' :
  open_dataset file (files w) = Returned data →
  data_vars data !! "xrsa_flux" = Some xrsa →
  data_vars data !! "xrsb_flux" = Some xrsb →
  time_coord data = Some array →
  parse_time_array array = Returned parsed →
  Geos.make_goes_timeseries file w = (Returned t, w') →
  w' = w
  ∧ rows (ts_data t) ≡ₚ readings (datetime <$> parsed) xrsa xrsb
  ∧ length xrsa = length parsed
  ∧ length xrsb = length parsed
  ∧ ts_units t = [("xrsa", "W / m2"); ("xrsb", "W / m2")].
Proof.
  intros Ho Ha Hb Hc Hp.
  rewrite (make_goes_timeseries_known _ _ _ _ _ _ Ho Ha Hb
             (time_index_parsed _ _ _ Hc Hp)).
  destruct (new_DataFrame_two xrsa xrsb (datetime <$> parsed))
    as [(Hla & Hlb & ->)|[_ ->]]; [|done].
  rewrite length_fmap in Hla, Hlb.
  intros [= <- <-]. repeat split; try done.
  apply sort_index_rows.
Qed.

(** X5: what [make_goes_timeseries] raises.  A failure to open the file is
    passed on; a data set without 'xrsb_flux', then without 'xrsa_flux', then
    with nothing under 'time' gives [KeyError] with that name; a failure to
    parse the times is passed on; arrays of different lengths give
    [ValueError].  The world is untouched in each case. *)
Theorem make_goes_timeseries_errors file w :
  (∀ e, open_dataset file (files w) = Raised e →
        Geos.make_goes_timeseries file w = (Raised e, w))
  ∧ (∀ data,
       open_dataset file (files w) = Returned data →
       data_vars data !! "xrsb_flux" = None →
       Geos.make_goes_timeseries file w = (Raised (KeyError "xrsb_flux"), w))
  ∧ (∀ data xrsb,
       open_dataset file (files w) = Returned data →
       data_vars data !! "xrsb_flux" = Some xrsb →
       data_vars data !! "xrsa_flux" = None →
       Geos.make_goes_timeseries file w = (Raised (KeyError "xrsa_flux"), w))
  ∧ (∀ data xrsa xrsb,
       open_dataset file (files w) = Returned data →
       data_vars data !! "xrsa_flux" = Some xrsa →
       data_vars data !! "xrsb_flux" = Some xrsb →
       time_coord data = None →
       Geos.make_goes_timeseries file w = (Raised (KeyError "time"), w))
  ∧ (∀ data xrsa xrsb array e,
       open_dataset file (files w) = Returned data →
       data_vars data !! "xrsa_flux" = Some xrsa →
       data_vars data !! "xrsb_flux" = Some xrsb →
       time_coord data = Some array →
       parse_time_array array = Raised e →
       Geos.make_goes_timeseries file w = (Raised e, w))
  ∧ (∀ data xrsa xrsb array parsed,
       open_dataset file (files w) = Returned data →
       data_vars data !! "xrsa_flux" = Some xrsa →
       data_vars data !! "xrsb_flux" = Some xrsb →
       time_coord data = Some array →
       parse_time_array array = Returned parsed →
       length xrsa ≠ length parsed ∨ length xrsb ≠ length parsed →
       ∃ msg, Geos.make_goes_timeseries file w = (Raised (ValueError msg), w)).
Proof.
  repeat split.
  - intros e Ho.
    unfold Geos.make_goes_timeseries, load_dataset, mbind, M_bind. by rewrite Ho.
  - intros data Ho Hb.
    unfold Geos.make_goes_timeseries, load_dataset, data_var, mbind, M_bind, lift.
    by rewrite Ho, Hb.
  - intros data xrsb Ho Hb Ha.
    unfold Geos.make_goes_timeseries, load_dataset, data_var, mbind, M_bind, lift.
    by rewrite Ho, Hb, Ha.
  - intros data xrsa xrsb Ho Ha Hb Hc.
    unfold Geos.make_goes_timeseries, load_dataset, data_var, time_index,
      mbind, M_bind, lift.
    by rewrite Ho, Hb, Ha, Hc.
  - intros data xrsa xrsb array e Ho Ha Hb Hc Hp.
    unfold Geos.make_goes_timeseries, load_dataset, data_var, time_index,
      mbind, M_bind, lift.
    by rewrite Ho, Hb, Ha, Hc, Hp.
  - intros data xrsa xrsb array parsed Ho Ha Hb Hc Hp Hl.
    rewrite (make_goes_timeseries_known _ _ _ _ _ _ Ho Ha Hb
               (time_index_parsed _ _ _ Hc Hp)).
    destruct (new_DataFrame_two xrsa xrsb (datetime <$> parsed))
      as [(Hla & Hlb & _)|[_ ->]].
    + rewrite length_fmap in Hla, Hlb. by destruct Hl.
    + by eexists.
Qed.

Lemma dict_interval_names interval :
  interval ∈ ["7-day"; "3-day"; "1-day"; "6-hour"] →
  dict_getitem Geos.dict_interval interval
  = Returned ("xrays-" +:+ interval +:+ ".json").
Proof.
  intros Hin.
  repeat (apply elem_of_cons in Hin as [->|Hin]; [reflexivity|]).
  by apply elem_of_nil in Hin.
Qed.

(** [read_recent_noaa] on one of its intervals, step by step. *)
Lemma read_recent_noaa_known interval name w :
  dict_getitem Geos.dict_interval interval = Returned name →
  Geos.read_recent_noaa interval w
  = (match read_json (Geos.SWPC_URL +:+ "/" +:+ name) with
     | Returned [] => Raised (KeyError "energy")
     | Returned data =>
         match parse_times (time_tag <$> List.filter Geos.short_band data) with
         | Returned times =>
             match new_DataFrame
                     [("xrsa", flux_value <$> List.filter Geos.short_band data);
                      ("xrsb", flux_value <$> List.filter Geos.long_band data)]
                     times with
             | Returned df =>
                 Returned (mkTimeSeries (sort_index df)
                             [("xrsa", W_per_m2); ("xrsb", W_per_m2)])
             | Raised e => Raised e
             end
         | Raised e => Raised e
         end
     | Raised e => Raised e
     end, w).
Proof.
  intros Hn.
  assert (Hk : interval ∈ dict_keys Geos.dict_interval).
  { revert Hn. unfold Geos.dict_interval.
    cbn [dict_getitem dict_keys fmap list_fmap fst].
    repeat
      (match goal with
       | |- context [String.eqb ?k interval] =>
           destruct (String.eqb_spec k interval) as [<-|_]; [set_solver|]
       end).
    done. }
  unfold Geos.read_recent_noaa, mbind, M_bind, lift.
  rewrite (bool_decide_eq_true_2 _ Hk), Hn.
  destruct (read_json _) as [[|r data]|e]; [done| |done].
  rewrite !select_rows_nonempty by done.
  destruct (parse_times _) as [times|e]; [|done].
  by destruct (new_DataFrame _ times).
Qed.

(** X6: for each of its four intervals [read_recent_noaa] reads the feed
    'xrays-{interval}.json' under the SWPC address; a failure to read it is
    passed on; and whatever the outcome, nothing is printed, written or
    requested. *)
Theorem read_recent_noaa_reads_interval_feed interval w :
  interval ∈ ["7-day"; "3-day"; "1-day"; "6-hour"] →
  (Geos.read_recent_noaa interval w).2 = w
  ∧ ∀ e,
      read_json ("https://services.swpc.noaa.gov/json/goes/primary/xrays-"
                 +:+ interval +:+ ".json") = Raised e →
      Geos.read_recent_noaa interval w = (Raised e, w).
Proof.
  intros Hin.
  rewrite (read_recent_noaa_known _ _ w (dict_interval_names _ Hin)).
  split; [done|]. intros e He.
  change (Geos.SWPC_URL +:+ "/" +:+ "xrays-" +:+ interval +:+ ".json")
    with ("https://services.swpc.noaa.gov/json/goes/primary/xrays-"
          +:+ interval +:+ ".json").
  by rewrite He.
Qed.

(** X7: what [read_recent_noaa] makes of the feed it read.  An empty feed
    has no column 'energy' and raises [KeyError].  Otherwise the two bands
    are paired by position, not by time tag: a time tag of the short band
    that does not parse is passed on; with short-band records, and as many
    long-band ones, row i holds the time of the i-th short-band record with
    the i-th flux of either band; with a different number of them the call
    raises [ValueError]. *)
Theorem read_recent_noaa_pairs_by_position interval name w data :
  dict_getitem Geos.dict_interval interval = Returned name →
  read_json (Geos.SWPC_URL +:+ "/" +:+ name) = Returned data →
  (data = [] → Geos.read_recent_noaa interval w = (Raised (KeyError "energy"), w))
  ∧ (∀ e,
       data ≠ [] →
       parse_times (time_tag <$> List.filter Geos.short_band data) = Raised e →
       Geos.read_recent_noaa interval w = (Raised e, w))
  ∧ (∀ times,
       parse_times (time_tag <$> List.filter Geos.short_band data) = Returned times →
       times ≠ [] →
       length (List.filter Geos.long_band data)
       = length (List.filter Geos.short_band data) →
       ∃ t, Geos.read_recent_noaa interval w = (Returned t, w)
            ∧ rows (ts_data t)
              ≡ₚ readings times (flux_value <$> List.filter Geos.short_band data)
                                (flux_value <$> List.filter Geos.long_band data))
  ∧ (∀ times,
       data ≠ [] →
       parse_times (time_tag <$> List.filter Geos.short_band data) = Returned times →
       length (List.filter Geos.long_band data)
       ≠ length (List.filter Geos.short_band data) →
       ∃ msg, Geos.read_recent_noaa interval w = (Raised (ValueError msg), w)).
Proof.
  intros Hn Hj.
  rewrite (read_recent_noaa_known _ _ w Hn), Hj.
  split; [by intros ->|]. split; [|split].
  - intros e Hne Hp. destruct data as [|r data]; [done|]. by rewrite Hp.
  - intros times Hp Hne Hl.
    destruct data as [|r data].
    { simpl in Hp. injection Hp as <-. done. }
    rewrite Hp.
    pose proof (parse_times_length _ _ Hp) as Ht. rewrite length_fmap in Ht.
    destruct (new_DataFrame_two
                (flux_value <$> List.filter Geos.short_band (r :: data))
                (flux_value <$> List.filter Geos.long_band (r :: data)) times)
      as [(Hla & Hlb & ->)|[Hm ->]]; rewrite !length_fmap in *.
    + eexists. split; [reflexivity|]. apply sort_index_rows.
    + destruct Hm; congruence.
  - intros times Hne Hp Hl.
    destruct data as [|r data]; [done|]. rewrite Hp.
    pose proof (parse_times_length _ _ Hp) as Ht. rewrite length_fmap in Ht.
    destruct (new_DataFrame_two
                (flux_value <$> List.filter Geos.short_band (r :: data))
                (flux_value <$> List.filter Geos.long_band (r :: data)) times)
      as [(Hla & Hlb & _)|[_ ->]]; rewrite ?length_fmap in *.
    + congruence.
    + by eexists.
Qed.

(** X10: [get_goes_last_7d_deprecated] reads the 7-day feed and has no
    handler: a failure to read it is passed on with the world untouched.  It
    never prints or requests a file, and when it returns, what was handed to
    the writer for 'nasa_spaceApp/data/result.json' is a sorted table of the
    two columns. *)
Theorem get_goes_last_7d_deprecated_run w :
  stdout (Geos.get_goes_last_7d_deprecated w).2 = stdout w
  ∧ requests (Geos.get_goes_last_7d_deprecated w).2 = requests w
  ∧ (∀ e,
       read_json "https://services.swpc.noaa.gov/json/goes/primary/xrays-7-day.json"
       = Raised e →
       Geos.get_goes_last_7d_deprecated w = (Raised e, w))
  ∧ (∀ w',
       Geos.get_goes_last_7d_deprecated w = (Returned tt, w') →
       ∃ t, xrs_table t
            ∧ table_write "nasa_spaceApp/data/result.json" t (files w)
              = (Returned tt, files w')).
Proof.
  unfold Geos.get_goes_last_7d_deprecated. cbn zeta. unfold mbind, M_bind.
  rewrite (read_recent_noaa_known "7-day" "xrays-7-day.json" w eq_refl).
  change (Geos.SWPC_URL +:+ "/" +:+ "xrays-7-day.json")
    with "https://services.swpc.noaa.gov/json/goes/primary/xrays-7-day.json".
  change (Geos.DATA_PATH +:+ "/result.json") with "nasa_spaceApp/data/result.json".
  destruct (read_json _) as [[|r data]|e0].
  3: { repeat split; try done. by intros e [= ->]. }
  { by repeat split. }
  destruct (parse_times _) as [times|e0]; [|by repeat split].
  destruct (new_DataFrame _ times) as [df|e0] eqn:Hdf; [|by repeat split].
  unfold write_table.
  destruct (table_write _ _ (files w)) as [[[]|e0] fs] eqn:Hw; cbn.
  - repeat split; try done. intros w' [= <-]. eexists. split; [|exact Hw].
    exact (proj1 (sorted_frame_is_xrs_table _ _ _ _ _ Hdf)).
  - by repeat split.
Qed.

(** *** The drivers *)

Lemma get_goes_requests date sat type path w :
  requests (Geos.get_goes date sat type path w).2 = requests w
  ∨ ∃ d frags filename,
      parse_time date = Returned d
      ∧ Geos.construct_path type = Returned frags
      ∧ requests (Geos.get_goes date sat type path w).2
        = requests w ++ [(Geos.goes_url sat frags d, filename)].
Proof.
  rewrite get_goes_steps.
  destruct (Geos.construct_path type) as [frags|e] eqn:Hc; [|by left].
  destruct (parse_time date) as [d|e] eqn:Hd; [|by left]. cbn zeta.
  destruct (Geos.local_filename _ path) as [filename|e]; [|by left].
  destruct (reuse_or_fetch_effects (Geos.goes_url sat frags d) filename
              (printed (Geos.goes_url sat frags d) w)) as [_ [-> | ->]]; cbn.
  - by left.
  - right. by exists d, frags, filename.
Qed.

Lemma old_get_goes_requests date sat path w :
  ∃ new, requests (GeosOld.get_goes date sat path w).2 = requests w ++ new
         ∧ (length new ≤ 1)%nat.
Proof.
  rewrite old_get_goes_steps.
  destruct (parse_time date) as [d|e];
    [|exists []; split; [by rewrite app_nil_r|simpl; lia]].
  cbn zeta.
  destruct (GeosOld.local_filename _ path) as [filename|e];
    [|exists []; split; [by rewrite app_nil_r|simpl; lia]].
  destruct (reuse_or_fetch_effects (GeosOld.goes_url sat d) filename w)
    as [_ [-> | ->]].
  - exists []. split; [by rewrite app_nil_r|simpl; lia].
  - eexists. split; [reflexivity|simpl; lia].
Qed.

Lemma old_make_goes_timeseries_eq file w :
  GeosOld.make_goes_timeseries file w = Geos.make_goes_timeseries file w.
Proof. reflexivity. Qed.

Lemma make_goes_timeseries_table file w t w' :
  Geos.make_goes_timeseries file w = (Returned t, w') → w' = w ∧ xrs_table t.
Proof.
  intros Hr. pose proof (make_goes_timeseries_world file w) as Hw.
  rewrite Hr in Hw. simpl in Hw. split; [done|]. revert Hr.
  unfold Geos.make_goes_timeseries, load_dataset, mbind, M_bind, lift, mret, M_ret.
  destruct (open_dataset file (files w)) as [data|e]; [|done].
  destruct (data_var data "xrsb_flux") as [xrsb|e]; [|done].
  destruct (data_var data "xrsa_flux") as [xrsa|e]; [|done].
  destruct (time_index data) as [times|e]; [|done].
  destruct (new_DataFrame _ times) as [df|e] eqn:Hdf; [|done].
  intros [= <- _]. exact (proj1 (sorted_frame_is_xrs_table _ _ _ _ _ Hdf)).
Qed.

(** X9: an iteration of [get_goes_by_date] that runs to its end has handed
    the writer, for the output file of its combination, the sorted two-column
    table parsed from the file [get_goes] returned; its last line of output
    names that file, and parsing and writing issued no request. *)
Theorem process_writes_sorted_table type sat date w w' :
  Geos.process type sat date w = (Returned tt, w') →
  ∃ file t w1,
    Geos.get_goes date sat type (Some Geos.DATA_PATH) w = (Returned file, w1)
    ∧ Geos.make_goes_timeseries file w1 = (Returned t, w1)
    ∧ xrs_table t
    ∧ table_write (Geos.output_file type sat date) t (files w1)
      = (Returned tt, files w')
    ∧ stdout w' = stdout w1 ++ ["  ==> " +:+ Geos.output_file type sat date]
    ∧ requests w' = requests w1.
Proof.
  unfold Geos.process. cbn zeta. unfold mbind, M_bind.
  destruct (Geos.get_goes date sat type (Some Geos.DATA_PATH) w)
    as [[file|e] w1]; [|done].
  destruct (Geos.make_goes_timeseries file w1) as [[t|e] w2] eqn:Hm; [|done].
  destruct (make_goes_timeseries_table _ _ _ _ Hm) as [-> Ht].
  unfold write_table.
  destruct (table_write _ t (files w1)) as [[[]|e] fs] eqn:Hw; cbn; [|done].
  intros [= <-]. by exists file, t, w1.
Qed.

(** X13: the statements of the old script issue at most one request and
    have no handler of their own; when they run to their end, the writer was
    handed, for 'public/data/goes-16-xrs-20220928.json', the sorted two-column
    table parsed from the file [get_goes] returned. *)
Theorem old_script_run w :
  (∃ new, requests (GeosOld.main w).2 = requests w ++ new ∧ (length new ≤ 1)%nat)
  ∧ (∀ e w1,
       GeosOld.get_goes "2022-09-28" 16 (Some "public/data") w = (Raised e, w1) →
       GeosOld.main w = (Raised e, w1))
  ∧ (∀ w',
       GeosOld.main w = (Returned tt, w') →
       ∃ file t w1,
         GeosOld.get_goes "2022-09-28" 16 (Some "public/data") w = (Returned file, w1)
         ∧ GeosOld.make_goes_timeseries file w1 = (Returned t, w1)
         ∧ xrs_table t
         ∧ table_write "public/data/goes-16-xrs-20220928.json" t (files w1)
           = (Returned tt, files w')
         ∧ stdout w' = stdout w1).
Proof.
  unfold GeosOld.main. cbn zeta. unfold mbind, M_bind.
  change GeosOld.date with "2022-09-28".
  change GeosOld.DATA_PATH with "public/data".
  change GeosOld.output_file with "public/data/goes-16-xrs-20220928.json".
  pose proof (old_get_goes_requests "2022-09-28" 16 (Some "public/data") w) as Hq.
  destruct (GeosOld.get_goes "2022-09-28" 16 (Some "public/data") w)
    as [[file|e] w1].
  2: { split; [exact Hq|]. split; [by intros ? ? [= <- <-]|done]. }
  rewrite old_make_goes_timeseries_eq.
  destruct (Geos.make_goes_timeseries file w1) as [[t|e] w2] eqn:Hm.
  2: { pose proof (make_goes_timeseries_world file w1) as Hw.
       rewrite Hm in Hw. simpl in Hw. subst w2. by repeat split. }
  destruct (make_goes_timeseries_table _ _ _ _ Hm) as [-> Ht].
  unfold write_table.
  destruct (table_write _ t (files w1)) as [[[]|e] fs] eqn:Hw; cbn.
  - split; [exact Hq|]. split; [done|].
    intros w' [= <-]. exists file, t, w1.
    by rewrite old_make_goes_timeseries_eq.
  - split; [exact Hq|]. by split.
Qed.

Lemma attempt_requests c w :
  ∃ new, requests (attempt c w).2 = requests w ++ new
         ∧ (length new ≤ 1)%nat
         ∧ Forall (λ rq, ∃ d frags,
                      parse_time c.2 = Returned d
                      ∧ Geos.construct_path c.1.1 = Returned frags
                      ∧ rq.1 = Geos.goes_url c.1.2 frags d) new.
Proof.
  rewrite attempt_world. unfold Geos.process. cbn zeta. unfold mbind, M_bind.
  pose proof (get_goes_requests c.2 c.1.2 c.1.1 (Some Geos.DATA_PATH) w) as Hg.
  destruct (Geos.get_goes c.2 c.1.2 c.1.1 (Some Geos.DATA_PATH) w) as [[file|e] w1].
  - pose proof (make_goes_timeseries_world file w1) as Hm.
    assert (Hrest : requests
              (match Geos.make_goes_timeseries file w1 with
               | (Returned t, w2) =>
                   match write_table (Geos.output_file c.1.1 c.1.2 c.2) t w2 with
                   | (Returned _, w3) =>
                       print ("  ==> " +:+ Geos.output_file c.1.1 c.1.2 c.2) w3
                   | (Raised e, w3) => (Raised e, w3)
                   end
               | (Raised e, w2) => (Raised e, w2)
               end).2 = requests w1).
    { destruct (Geos.make_goes_timeseries file w1) as [[t|e] w2];
        simpl in Hm; subst w2; [|done].
      unfold write_table.
      by destruct (table_write _ t (files w1)) as [[[]|e] fs]. }
    rewrite Hrest. clear Hrest.
    simpl in Hg. destruct Hg as [->|(d & frags & fn & Hd & Hc & ->)].
    + exists []. split; [by rewrite app_nil_r|]. split; [simpl; lia|constructor].
    + eexists. split; [reflexivity|]. split; [simpl; lia|].
      constructor; [|constructor]. by exists d, frags.
  - simpl in *. destruct Hg as [->|(d & frags & fn & Hd & Hc & ->)].
    + exists []. split; [by rewrite app_nil_r|]. split; [simpl; lia|constructor].
    + eexists. split; [reflexivity|]. split; [simpl; lia|].
      constructor; [|constructor]. by exists d, frags.
Qed.

Lemma attempts_requests cs w :
  ∃ new, requests (attempts cs w).2 = requests w ++ new
         ∧ (length new ≤ length cs)%nat
         ∧ Forall (λ rq, ∃ c d frags,
                      c ∈ cs
                      ∧ parse_time c.2 = Returned d
                      ∧ Geos.construct_path c.1.1 = Returned frags
                      ∧ rq.1 = Geos.goes_url c.1.2 frags d) new.
Proof.
  revert w. induction cs as [|c cs IH]; intros w.
  - exists []. split; [by rewrite app_nil_r|]. split; [done|constructor].
  - rewrite attempts_cons.
    destruct (IH (attempt c w).2) as (new2 & -> & Hl2 & Hf2).
    destruct (attempt_requests c w) as (new1 & -> & Hl1 & Hf1).
    exists (new1 ++ new2). split; [by rewrite app_assoc|]. split.
    + rewrite length_app. simpl. lia.
    + apply Forall_app. split.
      * eapply Forall_impl; [exact Hf1|].
        intros rq (d & frags & ?). exists c, d, frags. split; [left|done].
      * eapply Forall_impl; [exact Hf2|].
        intros rq (c' & d & frags & Hin & ?). exists c', d, frags.
        split; [by right|done].
Qed.

Lemma combinations_members c :
  c ∈ combinations →
  c.1.1 = "xrs-x1s" ∧ c.1.2 ∈ Geos.satList ∧ c.2 ∈ Geos.dateList.
Proof.
  unfold combinations. rewrite list_elem_of_In.
  intros (type & Ht & Hin)%in_flat_map.
  apply in_flat_map in Hin as (sat & Hs & Hin).
  apply in_flat_map in Hin as (date & Hd & [<-|[]]). simpl.
  rewrite <- !list_elem_of_In in *. split; [|done].
  unfold Geos.typeList in Ht. by apply list_elem_of_singleton in Ht.
Qed.

(** X8: a run of [get_goes_by_date] adds at most 39 requests to those
    already issued (one per combination at most), each for the XRS 1-second
    URL of one of its satellites on one of its dates. *)
Theorem get_goes_by_date_requests w :
  ∃ new,
    requests (Geos.get_goes_by_date w).2 = requests w ++ new
    ∧ (length new ≤ 39)%nat
    ∧ Forall (λ rq, ∃ sat date d,
                 sat ∈ [16; 17; 18]
                 ∧ date ∈ Geos.dateList
                 ∧ parse_time date = Returned d
                 ∧ rq.1 = Geos.goes_url sat
                            ("xrsf-l2-flx1s_science", "sci_xrsf-l2-flx1s_g", "_v2-1-0")
                            d) new.
Proof.
  rewrite get_goes_by_date_flat.
  destruct (attempts_requests combinations w) as (new & Hr & Hl & Hf).
  exists new. split; [exact Hr|]. split; [exact Hl|].
  eapply Forall_impl; [exact Hf|].
  intros rq ([[type sat] date] & d & frags & Hin & Hd & Hc & Hu).
  apply combinations_members in Hin as (Ht & Hs & Hdt). simpl in *. subst type.
  injection Hc as <-. by exists sat, date, d.
Qed.

End MoreProperties.

Section SensorProperties.
Context `{Streams}.

(** Membership in a list that is written out. *)
Ltac listed :=
  unfold Geos.sensor_type; cbn [fmap list_fmap fst snd];
  repeat first [by constructor 1|constructor 2].

(** A loop without a handler ends at the first turn that raises. *)
Lemma for_each_raises {A} (pre post : list A) (x : A) (body : A → M unit) w e :
  (for_each pre body w).1 = Returned tt →
  (body x (for_each pre body w).2).1 = Raised e →
  for_each (pre ++ x :: post) body w
  = (Raised e, (body x (for_each pre body w).2).2).
Proof.
  intros Hp Hx. rewrite for_each_app. unfold mbind, M_bind.
  destruct (for_each pre body w) as [[[]|e0] w1]; [|done].
  simpl in *. unfold mbind, M_bind.
  destruct (body x w1) as [[[]|e1] w2]; [done|].
  simpl in Hx. by injection Hx as ->.
Qed.

(** A turn of the loop on a sensor whose feed is read, whose file opens and
    whose body decodes. *)
Lemma fetch_sensor_written key name w u body text :
  dict_getitem Geos.sensor_type key = Returned name →
  urlopen_read key = Returned (u, body) →
  open_refused (sensor_file name) (files w) = None →
  decode_utf8 body = Returned text →
  Geos.fetch_sensor key w
  = (Returned tt,
     mkWorld (<[sensor_file name := text]> (files w))
       (stdout w ++ [u; "  ==> " +:+ sensor_file name]) (requests w)).
Proof.
  intros Hn Hu Ho Hd.
  unfold Geos.fetch_sensor, open_w, writelines, print, mbind, M_bind, lift.
  rewrite Hu, Hn. cbn. fold (sensor_file name). rewrite Ho, Hd. cbn.
  by rewrite insert_insert_eq, <- app_assoc.
Qed.

(** X12: one turn of [get_goes_last_7d_complete] on a sensor of its table.
    A feed that cannot be read raises before anything is printed; a file
    that cannot be opened raises after the response's URL was printed; a body
    that is not UTF-8 raises with the file already emptied; otherwise the
    file holds the decoded body and a second line names it. *)
Theorem fetch_sensor_outcomes key name w :
  dict_getitem Geos.sensor_type key = Returned name →
  (∀ e, urlopen_read key = Raised e → Geos.fetch_sensor key w = (Raised e, w))
  ∧ (∀ u body e,
       urlopen_read key = Returned (u, body) →
       open_refused (sensor_file name) (files w) = Some e →
       Geos.fetch_sensor key w = (Raised e, printed u w))
  ∧ (∀ u body e,
       urlopen_read key = Returned (u, body) →
       open_refused (sensor_file name) (files w) = None →
       decode_utf8 body = Raised e →
       Geos.fetch_sensor key w
       = (Raised e,
          mkWorld (<[sensor_file name := ""]> (files w)) (stdout w ++ [u]) (requests w)))
  ∧ (∀ u body text,
       urlopen_read key = Returned (u, body) →
       open_refused (sensor_file name) (files w) = None →
       decode_utf8 body = Returned text →
       Geos.fetch_sensor key w
       = (Returned tt,
          mkWorld (<[sensor_file name := text]> (files w))
            (stdout w ++ [u; "  ==> " +:+ sensor_file name]) (requests w))).
Proof.
  intros Hn. repeat split.
  - intros e Hu. unfold Geos.fetch_sensor, mbind, M_bind, lift. by rewrite Hu.
  - intros u body e Hu Ho.
    unfold Geos.fetch_sensor, open_w, print, mbind, M_bind, lift.
    rewrite Hu, Hn. cbn. fold (sensor_file name). by rewrite Ho.
  - intros u body e Hu Ho Hd.
    unfold Geos.fetch_sensor, open_w, print, mbind, M_bind, lift.
    rewrite Hu, Hn. cbn. fold (sensor_file name). by rewrite Ho, Hd.
  - intros u body text Hu Ho Hd. by apply (fetch_sensor_written _ _ _ u body).
Qed.

(** X11: [get_goes_last_7d_complete] has no handler: when the turn of a
    sensor raises after the turns before it went through, the run ends there
    with that exception, and the sensors after it are not fetched. *)
Theorem get_goes_last_7d_complete_stops_at_first_failure w pre key post e :
  dict_keys Geos.sensor_type = pre ++ key :: post →
  (for_each pre Geos.fetch_sensor w).1 = Returned tt →
  (Geos.fetch_sensor key (for_each pre Geos.fetch_sensor w).2).1 = Raised e →
  Geos.get_goes_last_7d_complete w
  = (Raised e, (Geos.fetch_sensor key (for_each pre Geos.fetch_sensor w).2).2).
Proof.
  intros Hk Hp Hx. unfold Geos.get_goes_last_7d_complete. rewrite Hk.
  by apply for_each_raises.
Qed.

(** X14: when the five feeds are read, their bodies decode and their files
    open, [get_goes_last_7d_complete] returns with each sensor's file holding
    its decoded body and every other file as it was; it prints, sensor by
    sensor, the response's URL and the file written, and requests nothing
    through [urlretrieve]. *)
Theorem get_goes_last_7d_complete_writes_all w
    (response : string → string * string) (text : string → string) :
  (∀ key, key ∈ dict_keys Geos.sensor_type →
          urlopen_read key = Returned (response key)
          ∧ decode_utf8 (response key).2 = Returned (text key)) →
  (∀ name fs, name ∈ (snd <$> Geos.sensor_type) →
              open_refused (sensor_file name) fs = None) →
  ∃ w',
    Geos.get_goes_last_7d_complete w = (Returned tt, w')
    ∧ (∀ key name, (key, name) ∈ Geos.sensor_type →
                   files w' !! sensor_file name = Some (text key))
    ∧ (∀ file, file ∉ (sensor_file <$> (snd <$> Geos.sensor_type)) →
               files w' !! file = files w !! file)
    ∧ requests w' = requests w
    ∧ stdout w'
      = stdout w
        ++ flat_map (λ kn, [(response kn.1).1; "  ==> " +:+ sensor_file kn.2])
             Geos.sensor_type.
Proof.
  intros Hfeed Hopen.
  assert (Hturn : ∀ key name w0,
             (key, name) ∈ Geos.sensor_type →
             dict_getitem Geos.sensor_type key = Returned name →
             Geos.fetch_sensor key w0
             = (Returned tt,
                mkWorld (<[sensor_file name := text key]> (files w0))
                  (stdout w0 ++ [(response key).1; "  ==> " +:+ sensor_file name])
                  (requests w0))).
  { intros key name w0 Hin Hn.
    destruct (Hfeed key) as [Hu Hd].
    { apply list_elem_of_fmap. by exists (key, name). }
    apply (fetch_sensor_written _ _ _ (response key).1 (response key).2).
    - exact Hn.
    - by destruct (response key).
    - apply Hopen. apply list_elem_of_fmap. by exists (key, name).
    - exact Hd. }
  unfold Geos.get_goes_last_7d_complete.
  change (dict_keys Geos.sensor_type)
    with [Geos.GOES_ELECTRON; Geos.GOES_PROTON; Geos.GOES_MAGNETOMETERS;
          Geos.GOES_XRAYS_FLARES; Geos.GOES_XRAYS].
  cbn [for_each]. unfold mbind, M_bind.
  rewrite (Hturn Geos.GOES_ELECTRON "electron.json") by (listed || reflexivity).
  rewrite (Hturn Geos.GOES_PROTON "proton.json") by (listed || reflexivity).
  rewrite (Hturn Geos.GOES_MAGNETOMETERS "magnetometers.json")
    by (listed || reflexivity).
  rewrite (Hturn Geos.GOES_XRAYS_FLARES "xrays-flares.json")
    by (listed || reflexivity).
  rewrite (Hturn Geos.GOES_XRAYS "xrays.json") by (listed || reflexivity).
  eexists. split; [reflexivity|]. cbn [files stdout requests].
  split; [|split; [|split]].
  - intros key name Hin. unfold Geos.sensor_type in Hin.
    repeat (apply elem_of_cons in Hin as [Hin|Hin];
            [injection Hin as -> ->;
             repeat (rewrite lookup_insert; case_decide;
                     [first [done|exfalso;
                                  match goal with
                                  | Hx : sensor_file _ = sensor_file _ |- _ =>
                                      vm_compute in Hx; discriminate Hx
                                  end]
                     |try done])|]).
    by apply elem_of_nil in Hin.
  - intros file Hfile.
    rewrite !lookup_insert_ne; [done|..]; intros <-; apply Hfile; listed.
  - done.
  - unfold Geos.sensor_type. cbn [flat_map fst snd app].
    by rewrite <- !app_assoc.
Qed.

End SensorProperties.

(** ** The properties at concrete inputs *)

Module Witnesses.
Import Sample.

Lemma not_an_interval : "2-day" ∉ ["7-day"; "3-day"; "1-day"; "6-hour"].
Proof.
  intros Hin.
  repeat (apply elem_of_cons in Hin as [Hin|Hin]; [discriminate Hin|]).
  by apply elem_of_nil in Hin.
Qed.

Lemma get_goes_url_from_table_witness :
  ∃ out,
    stdout (Geos.get_goes (H := externals (Serves "netcdf"))
              "2022-09-28" 16 "mag-hi" None empty_world).2
    = mag_url :: out.
Proof.
  destruct (get_goes_url_from_table (H := externals (Serves "netcdf"))
              "2022-09-28" 16 "mag-hi" None sept_28 empty_world eq_refl)
    as (f1 & f2 & f3 & Hrow & _ & Hout & _).
  injection Hrow as <- <- <-.
  exact Hout.
Defined.

Lemma get_goes_reuses_existing_file_witness :
  (Geos.get_goes (H := externals Refuses) "2022-09-28" 16 "xrs" None cached_world).1
  = Returned (Some cached_name)
  ∧ files (Geos.get_goes (H := externals Refuses)
             "2022-09-28" 16 "xrs" None cached_world).2
    = files cached_world
  ∧ requests (Geos.get_goes (H := externals Refuses)
                "2022-09-28" 16 "xrs" None cached_world).2
    = [].
Proof.
  apply (proj1 (get_goes_reuses_existing_file (H := externals Refuses))
           "2022-09-28" 16 "xrs" None sept_28 xrs_frags xrs_segs cached_name cached_world).
  - reflexivity.
  - reflexivity.
  - vm_compute. reflexivity.
  - exists "netcdf". vm_compute. reflexivity.
Defined.

Lemma get_goes_download_failed_witness :
  Geos.get_goes (H := externals Refuses) "2022-09-28" 16 "xrs" (Some "d") empty_world
  = (Returned None,
     mkWorld ∅ [xrs_url; "Download failed"] [(xrs_url, "d/" +:+ cached_name)]).
Proof.
  apply (proj1 (get_goes_download_failed (H := externals Refuses))
           "2022-09-28" 16 "xrs" (Some "d") sept_28 xrs_frags xrs_segs cached_name
           empty_world (LibraryError "HTTP Error 404: Not Found") ∅).
  - reflexivity.
  - reflexivity.
  - vm_compute. reflexivity.
  - vm_compute. reflexivity.
  - reflexivity.
Defined.

Lemma get_goes_at_most_one_request_witness :
  requests (Geos.get_goes (H := externals (Serves "netcdf"))
              "2022-09-28" 16 "xrs" None cached_world).2
  = [].
Proof.
  apply (proj2 (get_goes_at_most_one_request (H := externals (Serves "netcdf"))
                  "2022-09-28" 16 "xrs" None cached_world)
           sept_28 xrs_frags xrs_segs cached_name).
  - reflexivity.
  - reflexivity.
  - vm_compute. reflexivity.
  - exists "netcdf". vm_compute. reflexivity.
Defined.


Lemma sample_writes_target_only srv : @writes_target_only (externals srv).
Proof.
  split; [|split].
  - intros url filename fs f Hf. destruct srv; simpl; [|done..].
    by rewrite lookup_insert_ne.
  - intros file t fs f Hf. simpl. by rewrite lookup_insert_ne.
  - intros file t fs fs' [= <-]. rewrite lookup_insert_eq. by eexists.
Qed.

Lemma get_goes_by_date_continues_after_failure_witness :
  (Geos.process (H := externals Refuses) "xrs-x1s" 16 "2022-10-02" late_cache).1
  = Raised (ValueError "did not find a match in any of xarray's IO backends")
  ∧ "  ==> nasa_spaceApp/data/goes-16-xrs-x1s-20220928.json"
    ∈ stdout (Geos.get_goes_by_date (H := externals Refuses) late_cache).2
  ∧ is_Some (files (Geos.get_goes_by_date (H := externals Refuses) late_cache).2
             !! "nasa_spaceApp/data/goes-16-xrs-x1s-20220928.json").
Proof.
  split; [vm_compute; reflexivity|].
  destruct (proj2 (get_goes_by_date_continues_after_failure
                     (H := externals Refuses) late_cache)
              first_four "xrs-x1s" 16 "2022-09-28" (drop 5 combinations))
    as (_ & Hline & _ & _ & Hfile).
  - vm_compute. reflexivity.
  - split.
    + apply Hline. vm_compute. reflexivity.
    + apply Hfile; [apply sample_writes_target_only|]. vm_compute. reflexivity.
Defined.

Lemma construct_path_total_with_default_witness :
  Geos.construct_path "xrs" = Returned xrs_frags
  ∧ ∀ date sat path,
      Geos.get_goes (H := externals Silent) date sat "xrs" path
      = Geos.get_goes (H := externals Silent) date sat "xrs-x1s" path.
Proof.
  pose proof (construct_path_total_with_default (H := externals Silent))
    as (_ & Hdefault & Hxrs).
  destruct (Hdefault "xrs" Hxrs) as (Hfrags & _ & Hsame).
  split; [exact Hfrags|exact Hsame].
Defined.

Lemma get_goes_returns_only_checked_names_witness :
  Geos.get_goes (H := externals Silent) "2022-09-28" 16 "xrs" None empty_world
  = (Returned None, mkWorld ∅ [xrs_url] [(xrs_url, cached_name)]).
Proof.
  apply (proj1 (proj2 (proj2 (get_goes_returns_only_checked_names
                                (H := externals Silent))))
           "2022-09-28" 16 "xrs" None sept_28 xrs_frags xrs_segs cached_name
           empty_world ∅).
  - reflexivity.
  - reflexivity.
  - vm_compute. reflexivity.
  - vm_compute. reflexivity.
  - reflexivity.
  - vm_compute. reflexivity.
Defined.

Lemma read_recent_noaa_invalid_interval_witness :
  Geos.read_recent_noaa (H := externals Refuses) "2-day" empty_world
  = (Raised (KeyError "2-day"),
     mkWorld ∅
       ["interval must be one of dict_keys(['7-day', '3-day', '1-day', '6-hour'])"]
       []).
Proof.
  apply (read_recent_noaa_invalid_interval (H := externals Refuses)
           "2-day" empty_world not_an_interval).
Defined.

End Witnesses.

Module MoreWitnesses.
Import Sample.

Lemma get_goes_unparseable_date_witness :
  Geos.get_goes (H := externals Refuses) "yesterday" 16 "xrs" None empty_world
  = (Raised (ValueError "yesterday"), empty_world).
Proof.
  apply (proj1 (get_goes_unparseable_date (H := externals Refuses)
                  "yesterday" (ValueError "yesterday") eq_refl)).
Defined.

Lemma get_goes_downloads_missing_file_witness :
  Geos.get_goes (H := externals (Serves "netcdf"))
    "2022-09-28" 16 "xrs" (Some "d") empty_world
  = (Returned (Some ("d/" +:+ cached_name)),
     mkWorld (<["d/" +:+ cached_name := "netcdf"]> ∅) [xrs_url]
       [(xrs_url, "d/" +:+ cached_name)]).
Proof.
  apply (proj1 (get_goes_downloads_missing_file (H := externals (Serves "netcdf")))
           "2022-09-28" 16 "xrs" (Some "d") sept_28 xrs_frags xrs_segs cached_name
           empty_world (<["d/" +:+ cached_name := "netcdf"]> ∅)).
  - reflexivity.
  - reflexivity.
  - vm_compute. reflexivity.
  - vm_compute. reflexivity.
  - reflexivity.
  - exists "netcdf". apply lookup_insert_eq.
Defined.

Lemma get_goes_local_name_witness :
  Geos.local_filename
    (Geos.goes_url (H := externals Refuses) 17
       ("magn-l2-hires", "dn_magn-l2-hires_g", "_v1-0-1") sept_28)
    (Some "cache")
  = Returned "cache/dn_magn-l2-hires_g17_d20220928_v1-0-1.nc".
Proof.
  apply (get_goes_local_name (H := externals Refuses)
           "2022-09-28" 17 "mag-hi" (Some "cache") sept_28
           "magn-l2-hires" "dn_magn-l2-hires_g" "_v1-0-1" empty_world).
  - reflexivity.
  - reflexivity.
  - vm_compute. reflexivity.
Defined.

Lemma make_goes_timeseries_keeps_readings_witness :
  [(1, [10; 11]); (2, [20; 21]); (3, [30; 31])]
  ≡ₚ readings [3; 1; 2] [30; 10; 20] [31; 11; 21].
Proof.
  refine (proj1 (proj2
    (make_goes_timeseries_keeps_readings (H := externals Refuses)
       (Some cached_name) cached_world day_of_data
       [30; 10; 20] [31; 11; 21] [3; 1; 2] (date_of_stamp <$> [3; 1; 2])
       (mkTimeSeries
          (mkFrame ["xrsa"; "xrsb"] [(1, [10; 11]); (2, [20; 21]); (3, [30; 31])])
          [("xrsa", W_per_m2); ("xrsb", W_per_m2)])
       cached_world _ _ _ _ _ _))).
  - vm_compute. reflexivity.
  - vm_compute. reflexivity.
  - vm_compute. reflexivity.
  - reflexivity.
  - reflexivity.
  - vm_compute. reflexivity.
Defined.

Lemma make_goes_timeseries_errors_witness :
  Geos.make_goes_timeseries (H := externals_with Refuses (Some no_times) (Returned feed))
    None empty_world
  = (Raised (ValueError "Input values did not match any of the formats"), empty_world).
Proof.
  apply (proj1 (proj2 (proj2 (proj2 (proj2
           (make_goes_timeseries_errors
              (H := externals_with Refuses (Some no_times) (Returned feed))
              None empty_world)))))
           no_times [] [] []).
  - reflexivity.
  - vm_compute. reflexivity.
  - vm_compute. reflexivity.
  - reflexivity.
  - reflexivity.
Defined.

Lemma read_recent_noaa_reads_interval_feed_witness :
  Geos.read_recent_noaa
    (H := externals_with Refuses None (Raised (LibraryError "unreachable")))
    "3-day" empty_world
  = (Raised (LibraryError "unreachable"), empty_world).
Proof.
  apply (read_recent_noaa_reads_interval_feed
           (H := externals_with Refuses None (Raised (LibraryError "unreachable")))
           "3-day" empty_world).
  - by repeat first [constructor 1|constructor 2].
  - reflexivity.
Defined.

Lemma read_recent_noaa_pairs_by_position_witness :
  Geos.read_recent_noaa (H := externals_with Refuses None (Returned []))
    "7-day" empty_world
  = (Raised (KeyError "energy"), empty_world)
  ∧ ∃ msg,
      Geos.read_recent_noaa (H := externals_with Refuses None (Returned uneven_feed))
        "7-day" empty_world
      = (Raised (ValueError msg), empty_world).
Proof.
  split.
  - by apply (proj1 (read_recent_noaa_pairs_by_position
                       (H := externals_with Refuses None (Returned []))
                       "7-day" "xrays-7-day.json" empty_world [] eq_refl eq_refl)).
  - apply (proj2 (proj2 (proj2 (read_recent_noaa_pairs_by_position
                                  (H := externals_with Refuses None (Returned uneven_feed))
                                  "7-day" "xrays-7-day.json" empty_world uneven_feed
                                  eq_refl eq_refl)))
             [20221002; 20221001]).
    + done.
    + reflexivity.
    + vm_compute. discriminate.
Defined.

Lemma process_writes_sorted_table_witness :
  ∃ t, @xrs_table (externals Refuses) t
       ∧ save "nasa_spaceApp/data/goes-16-xrs-x1s-20220928.json" t (files late_cache)
         = (Returned tt,
            files (Geos.process (H := externals Refuses)
                     "xrs-x1s" 16 "2022-09-28" late_cache).2).
Proof.
  destruct (process_writes_sorted_table (H := externals Refuses)
              "xrs-x1s" 16 "2022-09-28" late_cache
              (Geos.process (H := externals Refuses)
                 "xrs-x1s" 16 "2022-09-28" late_cache).2)
    as (file & t & w1 & Hg & _ & Ht & Hw & _).
  - vm_compute. reflexivity.
  - exists t. split; [exact Ht|].
    assert (Hf : files w1 = files late_cache).
    { revert Hg. vm_compute. by intros [= _ <-]. }
    rewrite <- Hf. exact Hw.
Defined.

Lemma get_goes_last_7d_complete_stops_at_first_failure_witness :
  Geos.get_goes_last_7d_complete (H0 := streams [Geos.GOES_PROTON] [] []) empty_world
  = (Raised (LibraryError "HTTP Error 503"),
     mkWorld (<[sensor_file "electron.json" := "[]"]> ∅)
       [Geos.GOES_ELECTRON; "  ==> nasa_spaceApp/data/7-day/electron.json"] []).
Proof.
  rewrite (get_goes_last_7d_complete_stops_at_first_failure
             (H := streams [Geos.GOES_PROTON] [] []) empty_world
             [Geos.GOES_ELECTRON] Geos.GOES_PROTON
             [Geos.GOES_MAGNETOMETERS; Geos.GOES_XRAYS_FLARES; Geos.GOES_XRAYS]
             (LibraryError "HTTP Error 503")).
  - vm_compute. reflexivity.
  - reflexivity.
  - vm_compute. reflexivity.
  - vm_compute. reflexivity.
Defined.

Lemma fetch_sensor_outcomes_witness :
  Geos.fetch_sensor (H0 := streams [] [Geos.GOES_XRAYS] []) Geos.GOES_XRAYS empty_world
  = (Raised (ValueError "invalid start byte"),
     mkWorld (<[sensor_file "xrays.json" := ""]> ∅) [Geos.GOES_XRAYS] []).
Proof.
  apply (proj1 (proj2 (proj2 (fetch_sensor_outcomes
                                (H := streams [] [Geos.GOES_XRAYS] [])
                                Geos.GOES_XRAYS "xrays.json" empty_world eq_refl)))
           Geos.GOES_XRAYS "not utf-8").
  - vm_compute. reflexivity.
  - reflexivity.
  - reflexivity.
Defined.

Lemma get_goes_last_7d_complete_writes_all_witness :
  (Geos.get_goes_last_7d_complete (H0 := streams [] [] []) empty_world).1
  = Returned tt.
Proof.
  destruct (get_goes_last_7d_complete_writes_all (H := streams [] [] []) empty_world
              (λ key, (key, "[]")) (λ _, "[]"))
    as (w' & -> & _).
  - intros key _. split; reflexivity.
  - intros name fs _. reflexivity.
  - reflexivity.
Defined.

Lemma get_goes_last_7d_deprecated_run_witness :
  Geos.get_goes_last_7d_deprecated
    (H := externals_with Refuses None (Raised (LibraryError "unreachable")))
    empty_world
  = (Raised (LibraryError "unreachable"), empty_world).
Proof.
  apply (proj1 (proj2 (proj2 (get_goes_last_7d_deprecated_run
                                (H := externals_with Refuses None
                                        (Raised (LibraryError "unreachable")))
                                empty_world)))).
  reflexivity.
Defined.

Lemma old_script_run_witness :
  ∃ t, @xrs_table (externals Refuses) t
       ∧ save "public/data/goes-16-xrs-20220928.json" t (files old_cache)
         = (Returned tt, files (GeosOld.main (H := externals Refuses) old_cache).2).
Proof.
  destruct (proj2 (proj2 (old_script_run (H := externals Refuses) old_cache))
              (GeosOld.main (H := externals Refuses) old_cache).2)
    as (file & t & w1 & Hg & _ & Ht & Hw & _).
  - vm_compute. reflexivity.
  - exists t. split; [exact Ht|].
    assert (Hf : files w1 = files old_cache).
    { revert Hg. vm_compute. by intros [= _ <-]. }
    rewrite <- Hf. exact Hw.
Defined.

End MoreWitnesses.
